(** * khoj: query routing and conversational memory of [src/main.py]

    A shallow embedding of the request handlers of [src/main.py]
    ([search], [regenerate], [chat]), of the start-up ([initialize_search],
    [initialize_processor], the [__main__] block) and of [shutdown_event].

    Python objects that travel through these functions are modelled by the
    type [value] of JSON-like data; dictionaries are finite maps.  The
    process-wide globals [model], [search_config] and [processor_config],
    the conversation log file and the list of calls made to the external
    collaborators (search backends, language model, file store) are the
    components of an explicit [World] that every handler threads through.
    A Python exception is the [Raise] outcome; the world reached when the
    exception is raised is kept, as in Python.

    Layout: Python values; content types, calls and files; the handlers
    (section [Khoj], over the opaque backend types); the readings used to
    state properties; the properties; a small deployment on which they are
    exercised (module [Example]). *)

From Stdlib Require Import ZArith.
From stdpp Require Import gmap strings list fin_maps.

Set Warnings "-register-all".
Local Open Scope Z_scope.
Local Open Scope string_scope.
Local Open Scope list_scope.

(** ** Python values *)

(** The data that [json.load] can produce and that the handlers pass around.
    Numbers are integers here: no handler computes with fractions. *)
Inductive value : Type :=
  | VNone
  | VBool (b : bool)
  | VInt (z : Z)
  | VStr (s : string)
  | VList (l : list value)
  | VDict (d : gmap string value).

(** Python exceptions raised by the modelled code, and failures reported by
    an external collaborator. *)
Inductive exn : Type :=
  | KeyError (k : string)
  | IndexError
  | TypeError
  | AttributeError
  | JSONDecodeError
  | OSError
  | ExternalError (who : string).

Inductive Result (A : Type) : Type :=
  | Ok (a : A)
  | Raise (e : exn).
Arguments Ok {A} a.
Arguments Raise {A} e.

(** Python truth value of an object ([if x:], [not x], [x and y]). *)
Definition truthy (v : value) : bool :=
  match v with
  | VNone => false
  | VBool b => b
  | VInt z => negb (Z.eqb z 0)
  | VStr s => negb (String.eqb s EmptyString)
  | VList l => match l with [] => false | _ => true end
  | VDict d => negb (Nat.eqb (size d) 0)
  end.

(** [len(x)] *)
Definition py_len (v : value) : Result Z :=
  match v with
  | VStr s => Ok (Z.of_nat (String.length s))
  | VList l => Ok (Z.of_nat (length l))
  | VDict d => Ok (Z.of_nat (size d))
  | _ => Raise TypeError
  end.

(** [x[k]] for a string key [k]. *)
Definition py_getitem (v : value) (k : string) : Result value :=
  match v with
  | VDict d => match d !! k with Some x => Ok x | None => Raise (KeyError k) end
  | _ => Raise TypeError
  end.

(** [x[-1]] *)
Definition py_last (v : value) : Result value :=
  match v with
  | VList l => match last l with Some x => Ok x | None => Raise IndexError end
  | VStr s =>
      match String.length s with
      | O => Raise IndexError
      | S n => Ok (VStr (String.substring n 1 s))
      end
  | VDict _ => Raise (KeyError "-1")
  | _ => Raise TypeError
  end.

(** [d.get(k, default)]: only dictionaries have the method. *)
Definition py_get (v : value) (k : string) (dflt : value) : Result value :=
  match v with
  | VDict d => Ok (default dflt (d !! k))
  | _ => Raise AttributeError
  end.

(** [x == s] for a string literal [s]. *)
Definition py_eq_str (v : value) (s : string) : bool :=
  match v with
  | VStr s' => String.eqb s' s
  | _ => false
  end.

(** The characters of a string, as one-character strings. *)
Fixpoint chars (s : string) : list value :=
  match s with
  | EmptyString => []
  | String c s' => VStr (String c EmptyString) :: chars s'
  end.

(** [for item in x]: the items a [for] clause visits. *)
Definition py_iter (v : value) : Result (list value) :=
  match v with
  | VList l => Ok l
  | VDict d => Ok (VStr <$> (map_to_list d).*1)
  | VStr s => Ok (chars s)
  | _ => Raise TypeError
  end.

(** [sep.join(items)]: every item has to be a string. *)
Fixpoint py_join (sep : string) (items : list value) : Result string :=
  match items with
  | [] => Ok EmptyString
  | VStr s :: rest =>
      match rest with
      | [] => Ok s
      | _ => match py_join sep rest with
             | Ok r => Ok (String.append s (String.append sep r))
             | Raise e => Raise e
             end
      end
  | _ :: _ => Raise TypeError
  end.

(** [[f(item) for item in items]], left to right, stopping at the first
    exception. *)
Fixpoint py_map (f : value -> Result value) (items : list value)
  : Result (list value) :=
  match items with
  | [] => Ok []
  | x :: rest =>
      match f x with
      | Raise e => Raise e
      | Ok y => match py_map f rest with
                | Ok ys => Ok (y :: ys)
                | Raise e => Raise e
                end
      end
  end.

(** The newline character of ["\n"]. *)
Definition newline : string := String (Ascii.ascii_of_nat 10) EmptyString.

(** Modelled from the spec: [get_from_dict] of [src/utils/helpers.py] is not
    among the sources.  The classifier returns "structured metadata with at
    least an intent field containing memory-type and, when memory-type is
    notes, a query field", and the orchestrator "extracts the refined query
    from the intent metadata": a lookup along a path of keys, [None] when
    the path leaves the dictionary. *)
Definition get_from_dict (dictionary : value) (k1 k2 : string) : value :=
  match dictionary with
  | VDict d =>
      match d !! k1 with
      | Some (VDict d1) => default VNone (d1 !! k2)
      | _ => VNone
      end
  | _ => VNone
  end.

(** Modelled from the spec: [message_to_log] of
    [src/processor/conversation/gpt.py] is not among the sources.  State
    Logged "appends the original query + full classified-intent metadata +
    model's response as one record" to the sequence it is given. *)
Definition turn_record (user_message metadata gpt_message : value) : value :=
  VDict (<["query" := user_message]>
         (<["intent" := metadata]>
          (<["response" := gpt_message]> ∅))).

Definition message_to_log (user_message metadata gpt_message conversation_log : value)
  : Result value :=
  match conversation_log with
  | VList l => Ok (VList (l ++ [turn_record user_message metadata gpt_message]))
  | _ => Raise AttributeError
  end.

(** ** Content types, external calls, files *)

Inductive SearchType : Type := Notes | Music | Ledger | Image.

#[global] Instance SearchType_eq_dec : EqDecision SearchType.
Proof. solve_decision. Defined.

(** The fixed order in which the handlers visit the content types. *)
Definition priority : list SearchType := [Notes; Music; Ledger; Image].

(** One entry per call that leaves the process. *)
Inductive event : Type :=
  | CallQuery (t : SearchType) (q : value)
  | CallCollate (t : SearchType) (n : option Z)
  | CallSetup (t : SearchType) (regenerate : bool)
  | CallUnderstand (q : value)
  | CallSummarize (text : value) (summary_type : string) (user_query : option value)
  | CallConverse (q : value) (chat_session : value)
  | WriteLog (doc : value).

Definition is_query (ev : event) : bool :=
  match ev with CallQuery _ _ => true | _ => false end.

(** What [json.load] finds in a regular file: a document, or bytes that do
    not parse.  The JSON codec itself belongs to the Python library. *)
Inductive FileContent : Type :=
  | Malformed
  | Document (v : value).

(** The node at the path of the conversation log. *)
Inductive FileState : Type :=
  | Absent
  | NotRegularFile
  | RegularFile (c : FileContent).

Definition is_file (f : FileState) : bool :=
  match f with RegularFile _ => true | _ => false end.

(** The language-model entry points of [src/processor/conversation/gpt.py]
    ([understand], [converse], [summarize]) and its prompt builder: external
    collaborators, each returning or raising. *)
Record Gpt : Type := {
  understand : value -> value -> Result value;
  converse : value -> value -> value -> Result value;
  summarize : value -> string -> option value -> value -> Result value;
  message_to_prompt : value -> value -> value -> Result value
}.

(** [x[k] = y] for a string key [k]. *)
Definition py_setitem (v : value) (k : string) (y : value) : Result value :=
  match v with
  | VDict d => Ok (VDict (<[k := y]> d))
  | _ => Raise TypeError
  end.

(** [k in d] where [d] is a dictionary. *)
Definition py_has_key (v : value) (k : string) : Result bool :=
  match v with
  | VDict d => Ok (bool_decide (is_Some (d !! k)))
  | _ => Raise TypeError
  end.

(** [x.append(y)]: only lists have the method. *)
Definition py_append (v y : value) : Result value :=
  match v with
  | VList l => Ok (VList (l ++ [y]))
  | _ => Raise AttributeError
  end.

(** [t == SearchType.X or t == None] *)
Definition selects (t : option SearchType) (ty : SearchType) : bool :=
  match t with
  | None => true
  | Some t' => bool_decide (t' = ty)
  end.

(** [cond and handle]: the handle when the condition holds and the handle is
    set. *)
Definition and_handle {H : Type} (cond : bool) (handle : option H) : option H :=
  if cond then handle else None.

Section Khoj.

(** The handle and configuration classes of [src/utils/config.py] and the
    hit lists of the backends are opaque to [src/main.py]. *)
Context {TextSearchModel ImageSearchModel : Type}.
Context {TextSearchConfig ImageSearchConfig : Type}.
Context {Hits : Type}.

(** *** Process-wide state *)

Record SearchModels : Type := {
  notes_search : option TextSearchModel;
  music_search : option TextSearchModel;
  ledger_search : option TextSearchModel;
  image_search : option ImageSearchModel
}.

Record SearchConfig : Type := {
  notes : option TextSearchConfig;
  music : option TextSearchConfig;
  ledger : option TextSearchConfig;
  image : option ImageSearchConfig
}.

Record ConversationProcessorConfig : Type := {
  verbose : bool;
  openai_api_key : value;
  chat_session : value;
  meta_log : value
}.

(** The globals [model], [search_config] and
    [processor_config.conversation], the node at the configured log path
    (the two ways the code resolves that path are taken to agree), and the
    calls made so far. *)
Record World : Type := {
  model : SearchModels;
  search_config : SearchConfig;
  conversation : option ConversationProcessorConfig;
  logfile : FileState;
  calls : list event
}.

(** The modules [asymmetric], [symmetric_ledger] and [image_search] of
    [src/search_type], the attributes [src/main.py] reads from handles and
    configurations, and the constructors of [src/utils/config.py]. *)
Record Backends : Type := {
  asymmetric_setup : TextSearchConfig -> bool -> Result TextSearchModel;
  asymmetric_query : value -> TextSearchModel -> Result Hits;
  asymmetric_collate_results : Hits -> value -> option Z -> Result value;
  symmetric_ledger_setup : TextSearchConfig -> bool -> Result TextSearchModel;
  symmetric_ledger_query : value -> TextSearchModel -> Result Hits;
  symmetric_ledger_collate_results : Hits -> value -> option Z -> Result value;
  image_search_setup : ImageSearchConfig -> bool -> Result ImageSearchModel;
  image_search_query : value -> option Z -> ImageSearchModel -> Result Hits;
  image_search_collate_results :
    Hits -> value -> value -> option Z -> Result value;
  entries : TextSearchModel -> value;
  image_names : ImageSearchModel -> value;
  input_directory : ImageSearchConfig -> value;
  text_config_from_dictionary : value -> string -> bool -> option TextSearchConfig;
  image_config_from_dictionary : value -> bool -> option ImageSearchConfig;
  conversation_config_from_dictionary :
    value -> bool -> option ConversationProcessorConfig
}.

Variable B : Backends.

(** *** Handlers as state transformers that may raise *)

Definition M (A : Type) : Type := World -> Result A * World.

#[global] Instance M_ret : MRet M := fun A a w => (Ok a, w).

#[global] Instance M_bind : MBind M := fun A B f m w =>
  match m w with
  | (Ok a, w') => f a w'
  | (Raise e, w') => (Raise e, w')
  end.

Definition raise {A : Type} (e : exn) : M A := fun w => (Raise e, w).

Definition lift {A : Type} (r : Result A) : M A := fun w => (r, w).

Definition gets {A : Type} (f : World -> A) : M A := fun w => (Ok (f w), w).

Definition record_call (ev : event) (w : World) : World :=
  {| model := model w; search_config := search_config w;
     conversation := conversation w; logfile := logfile w;
     calls := calls w ++ [ev] |}.

(** A call to an external collaborator: it is recorded, then its outcome
    is the outcome of the call. *)
Definition external {A : Type} (ev : event) (r : Result A) : M A :=
  fun w => (r, record_call ev w).

Definition set_model (m : SearchModels) : M unit := fun w =>
  (Ok tt, {| model := m; search_config := search_config w;
             conversation := conversation w; logfile := logfile w;
             calls := calls w |}).

Definition set_search_config (c : SearchConfig) : M unit := fun w =>
  (Ok tt, {| model := model w; search_config := c;
             conversation := conversation w; logfile := logfile w;
             calls := calls w |}).

Definition set_conversation (c : ConversationProcessorConfig) : M unit := fun w =>
  (Ok tt, {| model := model w; search_config := search_config w;
             conversation := Some c; logfile := logfile w;
             calls := calls w |}).

(** [processor_config.conversation.<attribute>]: an attribute of [None]
    does not exist. *)
Definition get_conversation : M ConversationProcessorConfig := fun w =>
  match conversation w with
  | Some c => (Ok c, w)
  | None => (Raise AttributeError, w)
  end.

Definition with_notes_search (h : TextSearchModel) (m : SearchModels) :=
  {| notes_search := Some h; music_search := music_search m;
     ledger_search := ledger_search m; image_search := image_search m |}.

Definition with_music_search (h : TextSearchModel) (m : SearchModels) :=
  {| notes_search := notes_search m; music_search := Some h;
     ledger_search := ledger_search m; image_search := image_search m |}.

Definition with_ledger_search (h : TextSearchModel) (m : SearchModels) :=
  {| notes_search := notes_search m; music_search := music_search m;
     ledger_search := Some h; image_search := image_search m |}.

Definition with_image_search (h : ImageSearchModel) (m : SearchModels) :=
  {| notes_search := notes_search m; music_search := music_search m;
     ledger_search := ledger_search m; image_search := Some h |}.

Definition with_chat_session (s : value) (c : ConversationProcessorConfig) :=
  {| verbose := verbose c; openai_api_key := openai_api_key c;
     chat_session := s; meta_log := meta_log c |}.

Definition with_meta_log (l : value) (c : ConversationProcessorConfig) :=
  {| verbose := verbose c; openai_api_key := openai_api_key c;
     chat_session := chat_session c; meta_log := l |}.

(** *** [search] (lines 25-67) *)

(** [q is None or q == ''] *)
Definition no_query (q : value) : bool :=
  match q with
  | VNone => true
  | VStr s => String.eqb s EmptyString
  | _ => false
  end.

Definition search (q : value) (n : option Z) (t : option SearchType) : M value :=
  if no_query q then mret (VDict ∅)
  else
    let user_query := q in
    let results_count := n in
    m ← gets model;
    match and_handle (selects t Notes) (notes_search m) with
    | Some h =>
        hits ← external (CallQuery Notes user_query)
                        (asymmetric_query B user_query h);
        external (CallCollate Notes results_count)
                 (asymmetric_collate_results B hits (entries B h) results_count)
    | None =>
    match and_handle (selects t Music) (music_search m) with
    | Some h =>
        hits ← external (CallQuery Music user_query)
                        (asymmetric_query B user_query h);
        external (CallCollate Music results_count)
                 (asymmetric_collate_results B hits (entries B h) results_count)
    | None =>
    match and_handle (selects t Ledger) (ledger_search m) with
    | Some h =>
        hits ← external (CallQuery Ledger user_query)
                        (symmetric_ledger_query B user_query h);
        external (CallCollate Ledger results_count)
                 (symmetric_ledger_collate_results B hits (entries B h)
                                                   results_count)
    | None =>
    match and_handle (selects t Image) (image_search m) with
    | Some h =>
        hits ← external (CallQuery Image user_query)
                        (image_search_query B user_query results_count h);
        cfg ← gets search_config;
        match image cfg with
        | None => raise AttributeError
        | Some c =>
            external (CallCollate Image results_count)
                     (image_search_collate_results B hits (image_names B h)
                        (input_directory B c) results_count)
        end
    | None => mret (VDict ∅)
    end end end end.

(** *** [regenerate] (lines 70-88) *)

Definition regenerate (t : option SearchType) : M value :=
  cfg ← gets search_config;
  match and_handle (selects t Notes) (notes cfg) with
  | Some c =>
      h ← external (CallSetup Notes true) (asymmetric_setup B c true);
      m ← gets model;
      set_model (with_notes_search h m)
  | None => mret tt
  end;;
  match and_handle (selects t Music) (music cfg) with
  | Some c =>
      h ← external (CallSetup Music true) (asymmetric_setup B c true);
      m ← gets model;
      set_model (with_music_search h m)
  | None => mret tt
  end;;
  match and_handle (selects t Ledger) (ledger cfg) with
  | Some c =>
      h ← external (CallSetup Ledger true) (symmetric_ledger_setup B c true);
      m ← gets model;
      set_model (with_ledger_search h m)
  | None => mret tt
  end;;
  match and_handle (selects t Image) (image cfg) with
  | Some c =>
      h ← external (CallSetup Image true) (image_search_setup B c true);
      m ← gets model;
      set_model (with_image_search h m)
  | None => mret tt
  end;;
  mret (VDict (<["status" := VStr "ok"]>
               (<["message" := VStr "regeneration completed"]> ∅))).

(** *** [chat] (lines 91-111) *)

(** [[item["Entry"] for item in result_list]] joined with newlines. *)
Definition collate_entries (result_list : value) : Result value :=
  match py_iter result_list with
  | Raise e => Raise e
  | Ok items =>
      match py_map (fun item => py_getitem item "Entry") items with
      | Raise e => Raise e
      | Ok bodies =>
          match py_join newline bodies with
          | Ok s => Ok (VStr s)
          | Raise e => Raise e
          end
      end
  end.

(** Lines 97-105, "Converse with OpenAI GPT": the classified metadata and
    the response. *)
Definition converse_with_gpt (gpt : Gpt) (q session : value)
  : M (value * value) :=
  conv ← get_conversation;
  metadata ← external (CallUnderstand q)
                      (understand gpt q (openai_api_key conv));
  if py_eq_str (get_from_dict metadata "intent" "memory-type") "notes" then
    let query := get_from_dict metadata "intent" "query" in
    result_list ← search query (Some 1) (Some Notes);
    collated_result ← lift (collate_entries result_list);
    conv ← get_conversation;
    gpt_response ← external (CallSummarize collated_result "notes" (Some q))
                            (summarize gpt collated_result "notes" (Some q)
                                       (openai_api_key conv));
    mret (metadata, gpt_response)
  else
    conv ← get_conversation;
    gpt_response ← external (CallConverse q session)
                            (converse gpt q session (openai_api_key conv));
    mret (metadata, gpt_response).

(** Lines 107-109, "Update Conversation History".  [meta_log] is the
    object read at line 95; nothing replaces it in between, so it is the
    object the last assignment stores into. *)
Definition update_conversation_history (gpt : Gpt)
    (q session log metadata gpt_response : value) : M unit :=
  prompt ← lift (message_to_prompt gpt q session gpt_response);
  conv ← get_conversation;
  set_conversation (with_chat_session prompt conv);;
  chat_log ← lift (py_get log "chat" (VList []));
  new_log ← lift (message_to_log q metadata gpt_response chat_log);
  conv ← get_conversation;
  updated ← lift (py_setitem (meta_log conv) "chat" new_log);
  set_conversation (with_meta_log updated conv).

Definition chat (gpt : Gpt) (q : value) : M value :=
  conv ← get_conversation;
  let session := chat_session conv in
  let log := meta_log conv in
  '(metadata, gpt_response) ← converse_with_gpt gpt q session;
  update_conversation_history gpt q session log metadata gpt_response;;
  mret (VDict (<["status" := VStr "ok"]> (<["response" := gpt_response]> ∅))).

(** *** [initialize_search] (lines 114-138) *)

Definition empty_models : SearchModels :=
  {| notes_search := None; music_search := None;
     ledger_search := None; image_search := None |}.

Definition empty_search_config : SearchConfig :=
  {| notes := None; music := None; ledger := None; image := None |}.

(** [if config: handle = setup(config, regenerate)] for one content type;
    the handle stays unset without a configuration. *)
Definition setup_if_configured {C H : Type} (ty : SearchType) (regen : bool)
    (setup : C -> bool -> Result H) (config : option C) : M (option H) :=
  match config with
  | Some c => h ← external (CallSetup ty regen) (setup c regen); mret (Some h)
  | None => mret None
  end.

Definition initialize_search (config : value) (regen : bool) (verbose : bool)
  : M (SearchModels * SearchConfig) :=
  let notes_config := text_config_from_dictionary B config "org" verbose in
  notes_handle ← setup_if_configured Notes regen (asymmetric_setup B) notes_config;
  let music_config := text_config_from_dictionary B config "music" verbose in
  music_handle ← setup_if_configured Music regen (asymmetric_setup B) music_config;
  let ledger_config := text_config_from_dictionary B config "ledger" verbose in
  ledger_handle ← setup_if_configured Ledger regen (symmetric_ledger_setup B)
                                      ledger_config;
  let image_config := image_config_from_dictionary B config verbose in
  image_handle ← setup_if_configured Image regen (image_search_setup B)
                                     image_config;
  mret ({| notes_search := notes_handle; music_search := music_handle;
           ledger_search := ledger_handle; image_search := image_handle |},
        {| notes := notes_config; music := music_config;
           ledger := ledger_config; image := image_config |}).

(** *** [initialize_processor] (lines 141-161) *)

Definition initialize_processor (config : value) (verbose : bool)
  : M ConversationProcessorConfig :=
  match conversation_config_from_dictionary B config verbose with
  | None => raise AttributeError
  | Some conv =>
      f ← gets logfile;
      if is_file f then
        match f with
        | RegularFile (Document doc) => mret (with_meta_log doc conv)
        | _ => raise JSONDecodeError
        end
      else
        mret (with_chat_session (VStr EmptyString) (with_meta_log (VDict ∅) conv))
  end.

(** *** [shutdown_event] (lines 164-191) *)

(** [open(path, "w+")] followed by [json.dump]: the node is created or
    replaced; a node that is not a regular file cannot be opened.  Other
    failures of the file store (a missing directory, permissions, a full
    disk) are outside this model, so what is proved of a shutdown that
    returns is stated under the hypothesis that it returned. *)
Definition write_log (doc : value) : M unit := fun w =>
  match logfile w with
  | NotRegularFile => (Raise OSError, w)
  | _ => (Ok tt, {| model := model w; search_config := search_config w;
                    conversation := conversation w;
                    logfile := RegularFile (Document doc);
                    calls := calls w ++ [WriteLog doc] |})
  end.

Definition session_record (summary session_start : value) (session_end : Z)
  : value :=
  VDict (<["summary" := summary]>
         (<["session-start" := session_start]>
          (<["session-end" := VInt session_end]> ∅))).

Definition shutdown_event (gpt : Gpt) : M unit :=
  conv ← get_conversation;
  if negb (truthy (meta_log conv)) then mret tt
  else
    let session_text := chat_session conv in
    let api_key := openai_api_key conv in
    let conversation_log := meta_log conv in
    summary ← external (CallSummarize session_text "chat" None)
                       (summarize gpt session_text "chat" None api_key);
    sessions ← lift (py_get conversation_log "session"
                       (VList [VDict (<["session-end" := VInt 0]> ∅)]));
    previous ← lift (py_last sessions);
    session_start ← lift (py_getitem previous "session-end");
    chat_log ← lift (py_getitem conversation_log "chat");
    session_end ← lift (py_len chat_log);
    let session := session_record summary session_start session_end in
    has ← lift (py_has_key conversation_log "session");
    updated ← (if has : bool then
                 recorded ← lift (py_getitem conversation_log "session");
                 appended ← lift (py_append recorded session);
                 lift (py_setitem conversation_log "session" appended)
               else
                 lift (py_setitem conversation_log "session" (VList [session])));
    set_conversation (with_meta_log updated conv);;
    write_log updated.

(** *** The [__main__] block (lines 194-202), up to the server start *)

Definition main (config : value) (regen verbose : bool) : M unit :=
  '(m, c) ← initialize_search config regen verbose;
  set_model m;;
  set_search_config c;;
  pc ← initialize_processor config verbose;
  set_conversation pc.

(** The module-level globals (lines 19-21) over a given file store. *)
Definition fresh_world (f : FileState) : World :=
  {| model := empty_models; search_config := empty_search_config;
     conversation := None; logfile := f; calls := [] |}.

(** *** Sequences of chat turns *)

(** A turn is a query together with what the language model does during
    that turn. *)
Definition turn : Type := Gpt * value.

Definition completed {A : Type} (r : Result A) : bool :=
  match r with Ok _ => true | Raise _ => false end.

(** Serve the turns in order; the number of turns that returned, and the
    world after the last one. *)
Fixpoint serve (turns : list turn) (w : World) : nat * World :=
  match turns with
  | [] => (O, w)
  | (gpt, q) :: rest =>
      let '(r, w') := chat gpt q w in
      let '(k, w'') := serve rest w' in
      ((if completed r then S k else k), w'')
  end.

Definition meta_log_of (w : World) : option value :=
  meta_log <$> conversation w.

Definition chat_session_of (w : World) : option value :=
  chat_session <$> conversation w.

(** The sequence under a key of a log; nothing where there is no such
    sequence. *)
Definition entries_under (key : string) (log : value) : list value :=
  match log with
  | VDict d => match d !! key with
               | Some (VList l) => l
               | _ => []
               end
  | _ => []
  end.

Definition log_entries (key : string) (w : World) : list value :=
  match meta_log_of w with
  | Some log => entries_under key log
  | None => []
  end.

(** [len(meta_log[key])] *)
Definition log_length (key : string) (w : World) : nat :=
  length (log_entries key w).


(** *** Reading the routing policy *)

Definition handle_present (m : SearchModels) (ty : SearchType) : bool :=
  match ty with
  | Notes => bool_decide (is_Some (notes_search m))
  | Music => bool_decide (is_Some (music_search m))
  | Ledger => bool_decide (is_Some (ledger_search m))
  | Image => bool_decide (is_Some (image_search m))
  end.

(** The policy in the words of the specification: the first content type,
    in priority order, that the filter selects and whose handle is set. *)
Definition route (t : option SearchType) (m : SearchModels) : option SearchType :=
  List.find (fun ty => selects t ty && handle_present m ty) priority.

Definition and_then {A C : Type} (r : Result A) (k : A -> Result C) : Result C :=
  match r with
  | Ok a => k a
  | Raise e => Raise e
  end.

(** What the backend of one content type answers in a given world: its
    hits, collated. *)
Definition collated (ty : SearchType) (q : value) (n : option Z) (w : World)
  : Result value :=
  match ty with
  | Notes =>
      match notes_search (model w) with
      | Some h => and_then (asymmetric_query B q h) (fun hits =>
                    asymmetric_collate_results B hits (entries B h) n)
      | None => Raise AttributeError
      end
  | Music =>
      match music_search (model w) with
      | Some h => and_then (asymmetric_query B q h) (fun hits =>
                    asymmetric_collate_results B hits (entries B h) n)
      | None => Raise AttributeError
      end
  | Ledger =>
      match ledger_search (model w) with
      | Some h => and_then (symmetric_ledger_query B q h) (fun hits =>
                    symmetric_ledger_collate_results B hits (entries B h) n)
      | None => Raise AttributeError
      end
  | Image =>
      match image_search (model w) with
      | Some h => and_then (image_search_query B q n h) (fun hits =>
                    match image (search_config w) with
                    | Some c => image_search_collate_results B hits
                                  (image_names B h) (input_directory B c) n
                    | None => Raise AttributeError
                    end)
      | None => Raise AttributeError
      end
  end.

(** The content type a backend call is addressed to. *)
Definition backend_of (ev : event) : option SearchType :=
  match ev with
  | CallQuery ty _ => Some ty
  | CallCollate ty _ => Some ty
  | _ => None
  end.

(** Two worlds that differ at most in the recorded calls. *)
Definition same_state (w w' : World) : Prop :=
  model w' = model w /\ search_config w' = search_config w /\
  conversation w' = conversation w /\ logfile w' = logfile w.

(** *** Reading the registry by content type *)

Inductive handle : Type :=
  | TextHandle (h : TextSearchModel)
  | ImageHandle (h : ImageSearchModel).

(** [model.X_search] for the content type [X]. *)
Definition handle_of (m : SearchModels) (ty : SearchType) : option handle :=
  match ty with
  | Notes => TextHandle <$> notes_search m
  | Music => TextHandle <$> music_search m
  | Ledger => TextHandle <$> ledger_search m
  | Image => ImageHandle <$> image_search m
  end.

(** [search_config.X] is set. *)
Definition configured (c : SearchConfig) (ty : SearchType) : bool :=
  match ty with
  | Notes => bool_decide (is_Some (notes c))
  | Music => bool_decide (is_Some (music c))
  | Ledger => bool_decide (is_Some (ledger c))
  | Image => bool_decide (is_Some (image c))
  end.

(** What [setup(search_config.X, regenerate=True)] answers for the content
    type [X], when [X] is configured. *)
Definition setup_of (c : SearchConfig) (ty : SearchType) : option (Result handle) :=
  match ty with
  | Notes => (fun cfg => and_then (asymmetric_setup B cfg true)
                           (fun h => Ok (TextHandle h))) <$> notes c
  | Music => (fun cfg => and_then (asymmetric_setup B cfg true)
                           (fun h => Ok (TextHandle h))) <$> music c
  | Ledger => (fun cfg => and_then (symmetric_ledger_setup B cfg true)
                            (fun h => Ok (TextHandle h))) <$> ledger c
  | Image => (fun cfg => and_then (image_search_setup B cfg true)
                           (fun h => Ok (ImageHandle h))) <$> image c
  end.

(** The content types a regeneration with filter [t] has to rebuild. *)
Definition to_rebuild (t : option SearchType) (c : SearchConfig) (ty : SearchType)
  : bool :=
  selects t ty && configured c ty.

(** No handle without a configuration. *)
Definition registry_consistent (w : World) : Prop :=
  forall ty, configured (search_config w) ty = false ->
             handle_of (model w) ty = None.

(** *** Reading the session records *)

(** [conversation_log.get("session", [{"session-end": 0}])[-1]["session-end"]] *)
Definition previous_session_end (conversation_log : value) : Result value :=
  and_then (py_get conversation_log "session"
              (VList [VDict (<["session-end" := VInt 0]> ∅)]))
    (fun sessions =>
       and_then (py_last sessions)
         (fun previous => py_getitem previous "session-end")).

(** The range of a session record. *)
Definition session_bounds (record : value) : option (Z * Z) :=
  match py_getitem record "session-start", py_getitem record "session-end" with
  | Ok (VInt first), Ok (VInt past) => Some (first, past)
  | _, _ => None
  end.

(** Every record starts where the one before it ended ([from] for the
    first) and does not end before it starts; the end of the last one. *)
Fixpoint chained (from : Z) (records : list value) : option Z :=
  match records with
  | [] => Some from
  | record :: rest =>
      match session_bounds record with
      | Some (first, past) =>
          if Z.eqb first from && Z.leb first past then chained past rest
          else None
      | None => None
      end
  end.

(** The shape of a log that the handlers themselves have built: empty, or
    a chat sequence with, possibly, a non-empty chain of session records
    that ends within the chat sequence. *)
Definition well_formed_log (log : value) : bool :=
  match log with
  | VDict d =>
      match d !! "session" with
      | None =>
          match d !! "chat" with
          | None => Nat.eqb (size d) 0
          | Some (VList _) => true
          | Some _ => false
          end
      | Some (VList (first :: rest)) =>
          match d !! "chat" with
          | Some (VList turns) =>
              match chained 0 (first :: rest) with
              | Some past => Z.leb past (Z.of_nat (length turns))
              | None => false
              end
          | _ => false
          end
      | Some _ => false
      end
  | _ => false
  end.

Definition healthy (w : World) : Prop :=
  match conversation w with
  | Some conv => well_formed_log (meta_log conv) = true
  | None => True
  end /\
  match logfile w with
  | Absent => True
  | RegularFile (Document doc) => well_formed_log doc = true
  | _ => False
  end.

(** *** Process lifetimes *)

Inductive request : Type :=
  | Search (q : value) (n : option Z) (t : option SearchType)
  | Regenerate (t : option SearchType)
  | Chat (gpt : Gpt) (q : value)
  | Shutdown (gpt : Gpt).

(** The world after a request has been handled, whether it returned or
    raised. *)
Definition after (req : request) (w : World) : World :=
  match req with
  | Search q n t => (search q n t w).2
  | Regenerate t => (regenerate t w).2
  | Chat gpt q => (chat gpt q w).2
  | Shutdown gpt => (shutdown_event gpt w).2
  end.

(** The worlds a deployment can be in: it is first started where there is
    no log file; it handles requests; it is started again over the log
    file the previous process has left. *)
Inductive reachable : World -> Prop :=
  | reach_first_start config regen verbose w :
      main config regen verbose (fresh_world Absent) = (Ok tt, w) ->
      reachable w
  | reach_request req w :
      reachable w -> reachable (after req w)
  | reach_restart config regen verbose w w' :
      reachable w ->
      main config regen verbose (fresh_world (logfile w)) = (Ok tt, w') ->
      reachable w'.

(** ** Properties *)

Ltac run :=
  unfold mbind, M_bind, mret, M_ret, gets, external, lift, raise in *;
  simpl in *.

Lemma same_state_refl w : same_state w w.
Proof. repeat split. Qed.

Lemma same_state_record ev w : same_state w (record_call ev w).
Proof. repeat split. Qed.

Lemma same_state_trans w1 w2 w3 :
  same_state w1 w2 -> same_state w2 w3 -> same_state w1 w3.
Proof.
  unfold same_state. intros (? & ? & ? & ?) (? & ? & ? & ?).
  repeat split; congruence.
Qed.

(** Sequencing: either the first computation raises, or it returns and the
    continuation decides. *)
Lemma bind_inv {A C : Type} (m : M A) (f : A -> M C) w r w' :
  (m ≫= f) w = (r, w') ->
  (exists e, m w = (Raise e, w') /\ r = Raise e) \/
  (exists a w1, m w = (Ok a, w1) /\ f a w1 = (r, w')).
Proof.
  unfold mbind, M_bind. destruct (m w) as [[a | e] w1]; intros H.
  - right. eauto.
  - left. inversion H; subst. eauto.
Qed.

Lemma external_inv {A : Type} ev (x : Result A) w r w' :
  external ev x w = (r, w') -> r = x /\ w' = record_call ev w.
Proof. unfold external. intros H. inversion H. done. Qed.

Lemma lift_inv {A : Type} (x : Result A) w r w' :
  lift x w = (r, w') -> r = x /\ w' = w.
Proof. unfold lift. intros H. inversion H. done. Qed.

Lemma get_conversation_inv w r w' :
  get_conversation w = (r, w') ->
  w' = w /\
  match r with
  | Ok c => conversation w = Some c
  | Raise _ => conversation w = None
  end.
Proof.
  unfold get_conversation. destruct (conversation w); intros H;
    inversion H; done.
Qed.

(** [search] reads the registry and calls backends; it assigns nothing. *)
Lemma search_same_state q n t w r w' :
  search q n t w = (r, w') -> same_state w w'.
Proof.
  unfold search. destruct (no_query q).
  { intros H. inversion H. apply same_state_refl. }
  destruct w as [[ns ms ls ims] cfg conv f cs].
  destruct t as [[]|], ns as [hn|], ms as [hm|], ls as [hl|], ims as [hi|];
    run; intros Hs;
    repeat match type of Hs with
           | context [match ?x with _ => _ end] => destruct x eqn:?; simpl in Hs
           end;
    inversion Hs; subst; repeat split.
Qed.

Lemma converse_with_gpt_same_state gpt q session w r w' :
  converse_with_gpt gpt q session w = (r, w') -> same_state w w'.
Proof.
  unfold converse_with_gpt. intros H.
  apply bind_inv in H as [(e & H & _) | (conv & w1 & H1 & H)];
    [apply get_conversation_inv in H as [-> _]; apply same_state_refl |].
  apply get_conversation_inv in H1 as [-> Hc].
  apply bind_inv in H as [(e & H & _) | (metadata & w1 & H1 & H)];
    [apply external_inv in H as [_ ->]; apply same_state_record |].
  apply external_inv in H1 as [_ ->].
  eapply same_state_trans; [apply same_state_record |].
  destruct (py_eq_str _ _).
  - apply bind_inv in H as [(e & H & _) | (res & w2 & H1 & H)];
      [by eapply search_same_state |].
    eapply same_state_trans; [by eapply search_same_state |].
    apply bind_inv in H as [(e & H & _) | (text & w3 & H2 & H)];
      [apply lift_inv in H as [_ ->]; apply same_state_refl |].
    apply lift_inv in H2 as [_ ->].
    apply bind_inv in H as [(e & H & _) | (conv' & w4 & H3 & H)];
      [apply get_conversation_inv in H as [-> _]; apply same_state_refl |].
    apply get_conversation_inv in H3 as [-> _].
    apply bind_inv in H as [(e & H & _) | (resp & w5 & H4 & H)];
      [apply external_inv in H as [_ ->]; apply same_state_record |].
    apply external_inv in H4 as [_ ->].
    inversion H; subst. apply same_state_record.
  - apply bind_inv in H as [(e & H & _) | (conv' & w4 & H3 & H)];
      [apply get_conversation_inv in H as [-> _]; apply same_state_refl |].
    apply get_conversation_inv in H3 as [-> _].
    apply bind_inv in H as [(e & H & _) | (resp & w5 & H4 & H)];
      [apply external_inv in H as [_ ->]; apply same_state_record |].
    apply external_inv in H4 as [_ ->].
    inversion H; subst. apply same_state_record.
Qed.

(** C2: with an empty or absent query, [search] returns the empty result,
    whatever the count and the filter, and calls no backend: the world,
    its call record included, is the one it started from, and the outcome
    is a value, not an exception. *)
Theorem search_without_query_is_noop (q : value) (n : option Z)
    (t : option SearchType) (w : World) :
  q = VNone \/ q = VStr EmptyString ->
  search q n t w = (Ok (VDict ∅), w).
Proof.
  intros [-> | ->]; reflexivity.
Qed.

(** C1: on a non-empty query [search] visits Notes, Music, Ledger, Image
    in that order and answers with the collated hits of the first type
    that the filter selects and whose handle is set.  Only the backend of
    that type is called (one query, then its collation), nothing is merged
    from another type, the state is left as it was, and when no type
    qualifies the answer is the empty result with no call at all. *)
Theorem search_first_match_wins (q : value) (n : option Z)
    (t : option SearchType) (w w' : World) (r : Result value) :
  no_query q = false ->
  search q n t w = (r, w') ->
  same_state w w' /\
  exists new : list event,
    calls w' = calls w ++ new /\
    (length (filter (fun ev => is_query ev = true) new) <= 1)%nat /\
    match route t (model w) with
    | None => r = Ok (VDict ∅) /\ new = []
    | Some ty =>
        r = collated ty q n w /\
        Forall (fun ev => backend_of ev = Some ty) new /\
        (new = [CallQuery ty q] \/ new = [CallQuery ty q; CallCollate ty n])
    end.
Proof.
  intros Hq Hs. unfold search in Hs. rewrite Hq in Hs.
  unfold route, collated, priority, handle_present.
  destruct w as [[ns ms ls ims] cfg conv f cs].
  destruct t as [[]|], ns as [hn|], ms as [hm|], ls as [hl|], ims as [hi|];
    run;
    repeat match type of Hs with
           | context [match ?x with _ => _ end] => destruct x eqn:?; simpl in Hs
           end;
    inversion Hs; subst; clear Hs; simpl;
    (split; [repeat split |]);
    first
      [ solve [ exists []; rewrite app_nil_r;
                split; [done | split; [simpl; lia | done]] ]
      | solve [ eexists [_]; rewrite <- ?app_assoc; simpl;
                split; [done | split; [cbv; lia |
                split; [done | split; [repeat constructor | left; done]]]] ]
      | solve [ eexists [_; _]; rewrite <- ?app_assoc; simpl;
                split; [done | split; [cbv; lia |
                split; [done | split; [repeat constructor | right; done]]]] ] ].
Qed.

Ltac setups H :=
  repeat match type of H with
         | context [asymmetric_setup ?B ?c ?b] =>
             destruct (asymmetric_setup B c b) eqn:?; simpl in H
         | context [symmetric_ledger_setup ?B ?c ?b] =>
             destruct (symmetric_ledger_setup B c b) eqn:?; simpl in H
         | context [image_search_setup ?B ?c ?b] =>
             destruct (image_search_setup B c b) eqn:?; simpl in H
         end.


(** The statements that update the history call no collaborator. *)
Lemma update_conversation_history_inv gpt q session log metadata response w r w' :
  meta_log_of w = Some log ->
  update_conversation_history gpt q session log metadata response w = (r, w') ->
  model w' = model w /\ search_config w' = search_config w /\
  logfile w' = logfile w /\ calls w' = calls w /\
  match r with
  | Ok _ =>
      log_entries "chat" w' =
        log_entries "chat" w ++ [turn_record q metadata response] /\
      (forall key, key <> "chat" -> log_entries key w' = log_entries key w) /\
      (exists p, message_to_prompt gpt q session response = Ok p /\
                 chat_session_of w' = Some p) /\
      (exists d, log = VDict d /\
                 match d !! "chat" with
                 | None | Some (VList _) => True
                 | Some _ => False
                 end /\
                 meta_log_of w' =
                   Some (VDict (<["chat" :=
                                   VList (entries_under "chat" log ++
                                          [turn_record q metadata response])]> d)))
  | Raise _ => meta_log_of w' = Some log
  end.
Proof.
  unfold update_conversation_history, meta_log_of, log_entries, meta_log_of.
  intros Hlog H.
  destruct (conversation w) as [conv |] eqn:Hconv; [| discriminate].
  simpl in Hlog. injection Hlog as <-.
  unfold mbind at 1, M_bind in H. unfold lift at 1 in H.
  destruct (message_to_prompt gpt q session response) as [p | e] eqn:Hp.
  2:{ inversion H; subst. by rewrite Hconv. }
  unfold mbind at 1, M_bind, get_conversation in H. rewrite Hconv in H.
  unfold mbind at 1, M_bind, set_conversation in H.
  unfold mbind at 1, M_bind in H. unfold lift at 1 in H.
  destruct (meta_log conv) as [| | | | | d] eqn:Hlog; simpl in H;
    try (inversion H; subst; simpl; by rewrite Hlog).
  unfold mbind at 1, M_bind in H. unfold lift at 1 in H.
  destruct (d !! "chat") as [[| | | | l |] |] eqn:Hd; simpl in H;
    try (inversion H; subst; simpl; by rewrite Hlog).
  - run. unfold set_conversation in H. simpl in H. rewrite Hlog in H.
    simpl in H. inversion H; subst. simpl. rewrite Hlog. simpl. rewrite Hd.
    rewrite lookup_insert_eq.
    repeat split; try done; [| by exists p | exists d; by rewrite Hd].
    intros key Hk. by rewrite lookup_insert_ne.
  - run. unfold set_conversation in H. simpl in H. rewrite Hlog in H.
    simpl in H. inversion H; subst. simpl. rewrite Hlog. simpl. rewrite Hd.
    rewrite lookup_insert_eq.
    repeat split; try done; [| by exists p | exists d; by rewrite Hd].
    intros key Hk. by rewrite lookup_insert_ne.
Qed.

Lemma same_state_meta_log w w' : same_state w w' -> meta_log_of w' = meta_log_of w.
Proof. unfold meta_log_of. by intros (_ & _ & -> & _). Qed.

Lemma same_state_chat_session w w' :
  same_state w w' -> chat_session_of w' = chat_session_of w.
Proof. unfold chat_session_of. by intros (_ & _ & -> & _). Qed.

(** One turn: the registry, the configuration and the log file stay; a
    turn that returns has appended one record under "chat" and left the
    other sequences alone; a turn that raises has left [meta_log] as it
    was. *)
Lemma chat_turn gpt q w r w' :
  chat gpt q w = (r, w') ->
  model w' = model w /\ search_config w' = search_config w /\
  logfile w' = logfile w /\
  match r with
  | Ok _ =>
      (exists record,
         log_entries "chat" w' = log_entries "chat" w ++ [record]) /\
      (forall key, key <> "chat" -> log_entries key w' = log_entries key w) /\
      (exists d record,
         meta_log_of w = Some (VDict d) /\
         match d !! "chat" with
         | None | Some (VList _) => True
         | Some _ => False
         end /\
         meta_log_of w' =
           Some (VDict (<["chat" :=
                           VList (entries_under "chat" (VDict d) ++ [record])]> d)))
  | Raise _ => meta_log_of w' = meta_log_of w
  end.
Proof.
  unfold chat. intros H.
  apply bind_inv in H as [(e & H & ->) | (conv & w1 & H1 & H)].
  { apply get_conversation_inv in H as [-> _]. done. }
  apply get_conversation_inv in H1 as [-> Hc]. simpl in H.
  apply bind_inv in H as [(e & H & ->) | ([metadata response] & w1 & H1 & H)].
  { apply converse_with_gpt_same_state in H.
    pose proof (same_state_meta_log _ _ H) as Hm.
    destruct H as (? & ? & ? & ?). done. }
  apply converse_with_gpt_same_state in H1.
  pose proof (same_state_meta_log _ _ H1) as Hm.
  assert (Hlog : meta_log_of w1 = Some (meta_log conv)).
  { rewrite Hm. unfold meta_log_of. by rewrite Hc. }
  assert (Hent : forall key, log_entries key w1 = log_entries key w).
  { intros key. unfold log_entries. by rewrite Hm. }
  destruct H1 as (Hmod & Hcfg & Hconv & Hfile).
  apply bind_inv in H as [(e & H & ->) | ([] & w2 & H2 & H)].
  - eapply update_conversation_history_inv in H as (? & ? & ? & ? & ?);
      [| exact Hlog].
    repeat split; congruence.
  - eapply update_conversation_history_inv in H2
      as (? & ? & ? & ? & Hchat & Hother & _ & (d & Hd & Hshape & Hnew));
      [| exact Hlog].
    inversion H; subst.
    repeat split; try congruence.
    + eexists. rewrite Hchat, Hent. reflexivity.
    + intros key Hk. rewrite Hother, Hent; done.
    + exists d. eexists. rewrite <- Hm, Hlog, Hd. repeat split; try done.
      rewrite Hnew, Hd. reflexivity.
Qed.

Lemma serve_counts turns : forall w,
  log_length "chat" (serve turns w).2 =
    (log_length "chat" w + (serve turns w).1)%nat.
Proof.
  induction turns as [| [gpt q] rest IH]; intros w; simpl.
  - lia.
  - destruct (chat gpt q w) as [r w1] eqn:Hchat.
    specialize (IH w1). destruct (serve rest w1) as [k w2]. simpl in *.
    apply chat_turn in Hchat as (_ & _ & _ & Hr).
    rewrite IH. unfold log_length in *.
    destruct r as [v | e]; simpl.
    + destruct Hr as ([record ->] & _ & _). rewrite length_app. simpl. lia.
    + unfold log_entries. rewrite Hr. lia.
Qed.

(** C3: the length of [meta_log["chat"]] counts the turns that completed.
    Over any sequence of turns it grows by the number of turns that
    returned, so it equals that number when the log starts without chat
    records; a turn that returns appends exactly one record; and a turn
    whose classification, search, completion or summarization raises ends
    there, with [meta_log] and [chat_session] as they were. *)
Theorem chat_log_counts_completed_turns :
  (forall turns w,
     log_length "chat" (serve turns w).2 =
       (log_length "chat" w + (serve turns w).1)%nat) /\
  (forall turns w,
     log_entries "chat" w = [] ->
     log_length "chat" (serve turns w).2 = (serve turns w).1) /\
  (forall gpt q w v w',
     chat gpt q w = (Ok v, w') ->
     exists record, log_entries "chat" w' = log_entries "chat" w ++ [record]) /\
  (forall gpt q w conv e w1,
     conversation w = Some conv ->
     converse_with_gpt gpt q (chat_session conv) w = (Raise e, w1) ->
     chat gpt q w = (Raise e, w1) /\
     meta_log_of w1 = meta_log_of w /\ chat_session_of w1 = chat_session_of w).
Proof.
  split; [exact serve_counts | split; [| split]].
  - intros turns w Hnil. rewrite serve_counts. unfold log_length.
    by rewrite Hnil.
  - intros gpt q w v w' H. by apply chat_turn in H as (_ & _ & _ & He & _ & _).
  - intros gpt q w conv e w1 Hc H. split.
    + unfold chat, mbind at 1, M_bind, get_conversation. rewrite Hc. simpl.
      unfold mbind at 1, M_bind. by rewrite H.
    + apply converse_with_gpt_same_state in H.
      split; [by apply same_state_meta_log | by apply same_state_chat_session].
Qed.

Lemma py_map_entries items bodies :
  Forall2 (fun item body => py_getitem item "Entry" = Ok (VStr body)) items bodies ->
  py_map (fun item => py_getitem item "Entry") items = Ok (VStr <$> bodies).
Proof.
  induction 1 as [| item body items bodies Hi _ IH]; simpl; [done |].
  by rewrite Hi, IH.
Qed.

Lemma py_join_concat sep bodies :
  py_join sep (VStr <$> bodies) = Ok (String.concat sep bodies).
Proof.
  induction bodies as [| b rest IH]; simpl; [done |].
  destruct rest as [| b' rest']; [done |].
  simpl in *. by rewrite IH.
Qed.

Lemma collate_entries_concat result_list items bodies :
  py_iter result_list = Ok items ->
  Forall2 (fun item body => py_getitem item "Entry" = Ok (VStr body)) items bodies ->
  collate_entries result_list = Ok (VStr (String.concat newline bodies)).
Proof.
  intros Hi Hb. unfold collate_entries.
  by rewrite Hi, (py_map_entries _ _ Hb), py_join_concat.
Qed.

(** C7: once the classifier has answered, the turn is answered according
    to the intent.  With memory-type "notes": [search] runs on the query
    found in the intent metadata with count 1 and filter Notes, the bodies
    of the entries it returns are joined with newlines, and the next and
    last call is the summarizer on that text with summary type "notes" and
    the user's query; its answer is the response.  With any other intent:
    the only further call is the completion on the user's query and the
    current [chat_session], and its answer is the response. *)
Theorem chat_answers_by_intent (gpt : Gpt) (q : value) (w w' : World)
    (conv : ConversationProcessorConfig) (metadata : value) (r : Result value) :
  conversation w = Some conv ->
  understand gpt q (openai_api_key conv) = Ok metadata ->
  chat gpt q w = (r, w') ->
  let api_key := openai_api_key conv in
  let w1 := record_call (CallUnderstand q) w in
  (py_eq_str (get_from_dict metadata "intent" "memory-type") "notes" = true ->
     forall result_list items bodies w2,
       search (get_from_dict metadata "intent" "query") (Some 1) (Some Notes) w1
         = (Ok result_list, w2) ->
       py_iter result_list = Ok items ->
       Forall2 (fun item body => py_getitem item "Entry" = Ok (VStr body))
               items bodies ->
       let text := VStr (String.concat newline bodies) in
       calls w' = calls w2 ++ [CallSummarize text "notes" (Some q)] /\
       match summarize gpt text "notes" (Some q) api_key with
       | Ok response =>
           forall v, r = Ok v -> py_getitem v "response" = Ok response
       | Raise e => r = Raise e
       end) /\
  (py_eq_str (get_from_dict metadata "intent" "memory-type") "notes" = false ->
     calls w' = calls w ++ [CallUnderstand q; CallConverse q (chat_session conv)] /\
     match converse gpt q (chat_session conv) api_key with
     | Ok response =>
         forall v, r = Ok v -> py_getitem v "response" = Ok response
     | Raise e => r = Raise e
     end).
Proof.
  intros Hc Hu Hchat api_key w1.
  assert (Hc1 : conversation w1 = Some conv) by exact Hc.
  unfold chat, mbind at 1, M_bind, get_conversation in Hchat.
  rewrite Hc in Hchat. simpl in Hchat.
  unfold mbind at 1, M_bind in Hchat.
  assert (Hdone : forall metadata' response w3,
            conversation w3 = Some conv -> 
            (update_conversation_history gpt q (chat_session conv)
               (meta_log conv) metadata' response ≫=
             (fun _ => mret (VDict (<["status" := VStr "ok"]>
                                     (<["response" := response]> ∅))))) w3
              = (r, w') ->
            calls w' = calls w3 /\
            forall v, r = Ok v -> py_getitem v "response" = Ok response).
  { intros metadata' response w3 Hc3 H.
    apply bind_inv in H as [(e & H & ->) | ([] & w4 & H4 & H)].
    - eapply update_conversation_history_inv in H as (_ & _ & _ & ? & _);
        [| unfold meta_log_of; by rewrite Hc3].
      split; [done | discriminate].
    - eapply update_conversation_history_inv in H4 as (_ & _ & _ & ? & _);
        [| unfold meta_log_of; by rewrite Hc3].
      inversion H; subst. split; [done |].
      intros v [= <-]. simpl. rewrite lookup_insert_ne by done.
      by rewrite lookup_insert_eq. }
  split.
  - intros Hnotes result_list items bodies w2 Hsearch Hiter Hbodies text.
    unfold converse_with_gpt, mbind at 1, M_bind, get_conversation in Hchat.
    rewrite Hc in Hchat.
    unfold mbind at 1, M_bind, external at 1 in Hchat.
    rewrite Hu, Hnotes in Hchat. fold w1 in Hchat.
    unfold mbind at 1, M_bind in Hchat. rewrite Hsearch in Hchat.
    unfold mbind at 1, M_bind, lift at 1 in Hchat.
    rewrite (collate_entries_concat _ _ _ Hiter Hbodies) in Hchat.
    fold text in Hchat.
    assert (Hc2 : conversation w2 = Some conv).
    { apply search_same_state in Hsearch as (_ & _ & -> & _). exact Hc1. }
    unfold mbind at 1, M_bind, get_conversation in Hchat.
    rewrite Hc2 in Hchat.
    unfold mbind at 1, M_bind, external at 1 in Hchat.
    fold api_key in Hchat.
    destruct (summarize gpt text "notes" (Some q) api_key) as [response | e].
    + unfold mret at 1, M_ret in Hchat.
      apply Hdone in Hchat as [Hcalls Hresp]; [| exact Hc2].
      split; [by rewrite Hcalls | exact Hresp].
    + inversion Hchat; subst. done.
  - intros Hother.
    unfold converse_with_gpt, mbind at 1, M_bind, get_conversation in Hchat.
    rewrite Hc in Hchat.
    unfold mbind at 1, M_bind, external at 1 in Hchat.
    rewrite Hu, Hother in Hchat. fold w1 in Hchat.
    unfold mbind at 1, M_bind, get_conversation in Hchat.
    rewrite Hc1 in Hchat.
    unfold mbind at 1, M_bind, external at 1 in Hchat.
    fold api_key in Hchat.
    destruct (converse gpt q (chat_session conv) api_key) as [response | e].
    + unfold mret at 1, M_ret in Hchat.
      apply Hdone in Hchat as [Hcalls Hresp]; [| exact Hc1].
      split; [| exact Hresp].
      rewrite Hcalls. simpl. by rewrite <- app_assoc.
    + inversion Hchat; subst. simpl. by rewrite <- app_assoc.
Qed.

(** What a shutdown over a non-empty log does.  When it returns, the log
    was a dictionary with a sequence under "chat", and one record has been
    appended under "session" and the log written out.  When it raises,
    nothing has been written. *)
Lemma shutdown_event_inv gpt w conv r w' :
  conversation w = Some conv ->
  truthy (meta_log conv) = true ->
  shutdown_event gpt w = (r, w') ->
  model w' = model w /\ search_config w' = search_config w /\
  chat_session_of w' = chat_session_of w /\
  match r with
  | Ok _ =>
      exists d summary first chat_log past,
        meta_log conv = VDict d /\
        summarize gpt (chat_session conv) "chat" None (openai_api_key conv)
          = Ok summary /\
        previous_session_end (VDict d) = Ok first /\
        d !! "chat" = Some chat_log /\ py_len chat_log = Ok past /\
        let updated :=
          VDict (<["session" :=
                    VList (entries_under "session" (VDict d) ++
                           [session_record summary first past])]> d) in
        meta_log_of w' = Some updated /\
        logfile w' = RegularFile (Document updated) /\
        calls w' = calls w ++
          [CallSummarize (chat_session conv) "chat" None; WriteLog updated]
  | Raise e =>
      logfile w' = logfile w /\
      calls w' = calls w ++ [CallSummarize (chat_session conv) "chat" None] /\
      (meta_log_of w' = meta_log_of w \/ logfile w = NotRegularFile)
  end.
Proof.
  intros Hc Ht H.
  unfold shutdown_event, mbind at 1, M_bind, get_conversation in H.
  rewrite Hc, Ht in H. simpl in H.
  unfold previous_session_end, meta_log_of, chat_session_of.
  unfold py_get, py_has_key, write_log, set_conversation in H.
  destruct (meta_log conv) as [| | | | | d] eqn:Hlog; run;
    destruct (summarize gpt (chat_session conv) "chat" None (openai_api_key conv))
      as [summary | e] eqn:Hsum; simpl in H;
    try (inversion H; subst; simpl; rewrite ?Hc; simpl; rewrite ?Hlog;
         repeat split; auto; fail).
  destruct (d !! "session") as [sessions |] eqn:Hs; simpl in H.
  - destruct (py_last sessions) as [previous | e] eqn:Hlast; simpl in H;
      [| inversion H; subst; simpl; rewrite Hc; simpl; rewrite Hlog; auto 10].
    destruct (py_getitem previous "session-end") as [first | e] eqn:Hend;
      simpl in H;
      [| inversion H; subst; simpl; rewrite Hc; simpl; rewrite Hlog; auto 10].
    destruct (d !! "chat") as [chat_log |] eqn:Hchat; simpl in H;
      [| inversion H; subst; simpl; rewrite Hc; simpl; rewrite Hlog; auto 10].
    destruct (py_len chat_log) as [past | e] eqn:Hlen; simpl in H;
      [| inversion H; subst; simpl; rewrite Hc; simpl; rewrite Hlog; auto 10].
    destruct sessions as [| | | | l |]; simpl in H;
      try (inversion H; subst; simpl; rewrite Hc; simpl; rewrite Hlog; auto 10; fail).
    destruct (logfile w) eqn:Hfile; simpl in H; inversion H; subst; simpl;
      rewrite ?Hc; simpl; rewrite ?Hlog;
      first [ by auto 10
            | split; [done | split; [done | split; [done |]]];
              exists d, summary, first, chat_log, past; rewrite Hs;
              simpl in Hlast |- *;
              destruct (last l); [| discriminate]; injection Hlast as ->;
              simpl; rewrite <- ?app_assoc; by auto 10 ].
  - rewrite lookup_insert_eq in H. simpl in H.
    destruct (d !! "chat") as [chat_log |] eqn:Hchat; simpl in H;
      [| inversion H; subst; simpl; rewrite Hc; simpl; rewrite Hlog; auto 10].
    destruct (py_len chat_log) as [past | e] eqn:Hlen; simpl in H;
      [| inversion H; subst; simpl; rewrite Hc; simpl; rewrite Hlog; auto 10].
    destruct (logfile w) eqn:Hfile; simpl in H; inversion H; subst; simpl;
      rewrite ?Hc; simpl; rewrite ?Hlog;
      first [ by auto 10
            | split; [done | split; [done | split; [done |]]];
              exists d, summary, (VInt 0), chat_log, past; rewrite Hs; simpl;
              rewrite lookup_insert_eq, <- ?app_assoc; by auto 10 ].
Qed.

Lemma truthy_dict d : truthy (VDict d) = true <-> d <> ∅.
Proof.
  simpl. rewrite negb_true_iff, Nat.eqb_neq. apply map_size_non_empty_iff.
Qed.

Lemma shutdown_with_empty_log_guard gpt w conv :
  conversation w = Some conv ->
  truthy (meta_log conv) = false ->
  shutdown_event gpt w = (Ok tt, w).
Proof.
  intros Hc Ht.
  unfold shutdown_event, mbind at 1, M_bind, get_conversation.
  by rewrite Hc, Ht.
Qed.

(** C6: a shutdown over an empty [meta_log] returns at once: the world is
    the one it started from, so the summarizer has not been called, no
    session record has been made and the log file has not been written. *)
Theorem shutdown_with_empty_log_is_noop (gpt : Gpt) (w : World)
    (conv : ConversationProcessorConfig) :
  conversation w = Some conv ->
  truthy (meta_log conv) = false ->
  shutdown_event gpt w = (Ok tt, w).
Proof.
  intros Hc Ht.
  unfold shutdown_event, mbind at 1, M_bind, get_conversation.
  rewrite Hc. simpl. by rewrite Ht.
Qed.

(** C10: a shutdown over a non-empty [meta_log] without a "chat" key
    raises.  Nothing is appended and nothing is written: [meta_log] and the
    log file are as before, and the only call is the one to the
    summarizer.  The exception is the [KeyError] of [conversation_log["chat"]]
    whenever the two steps before it (the summary, the end of the previous
    session) have succeeded. *)
Theorem shutdown_without_chat_key_raises (gpt : Gpt) (w : World)
    (conv : ConversationProcessorConfig) (d : gmap string value) :
  conversation w = Some conv ->
  meta_log conv = VDict d ->
  d <> ∅ ->
  d !! "chat" = None ->
  exists e w',
    shutdown_event gpt w = (Raise e, w') /\
    meta_log_of w' = meta_log_of w /\
    logfile w' = logfile w /\
    calls w' = calls w ++ [CallSummarize (chat_session conv) "chat" None] /\
    e = match summarize gpt (chat_session conv) "chat" None (openai_api_key conv) with
        | Raise e' => e'
        | Ok _ => match previous_session_end (VDict d) with
                  | Raise e' => e'
                  | Ok _ => KeyError "chat"
                  end
        end.
Proof.
  intros Hc Hlog Hne Hchat.
  apply truthy_dict in Hne. rewrite <- Hlog in Hne.
  destruct (shutdown_event gpt w) as [r w'] eqn:H.
  unfold shutdown_event, mbind at 1, M_bind, get_conversation in H.
  rewrite Hc, Hne in H. simpl in H.
  unfold py_get, py_has_key, write_log, set_conversation in H.
  unfold previous_session_end, py_get, meta_log_of.
  rewrite Hlog in H. run.
  destruct (summarize gpt (chat_session conv) "chat" None (openai_api_key conv))
    as [summary | e]; simpl in H.
  2:{ inversion H; subst. by eauto 10. }
  destruct (d !! "session") as [sessions |]; simpl in H |- *.
  - destruct (py_last sessions) as [previous | e]; simpl in H |- *.
    2:{ inversion H; subst. by eauto 10. }
    destruct (py_getitem previous "session-end") as [first | e]; simpl in H.
    2:{ inversion H; subst. by eauto 10. }
    rewrite Hchat in H. simpl in H. inversion H; subst. by eauto 10.
  - rewrite lookup_insert_eq in H |- *. simpl in H.
    rewrite Hchat in H. simpl in H. inversion H; subst. by eauto 10.
Qed.

Lemma setup_if_configured_inv {C H : Type} ty regen
    (setup : C -> bool -> Result H) (c : option C) w r w' :
  setup_if_configured ty regen setup c w = (r, w') ->
  same_state w w' /\
  match r with
  | Ok h => c = None -> h = None
  | Raise _ => True
  end.
Proof.
  unfold setup_if_configured. destruct c as [c |]; run.
  - destruct (setup c regen); intros H0; inversion H0; subst;
      (split; [apply same_state_record | done]).
  - intros H0. inversion H0; subst. split; [apply same_state_refl | done].
Qed.

(** The start-up of the search side assigns none of the globals; the
    registry it returns has no handle without a configuration. *)
Lemma initialize_search_inv config regen verbose w r w' :
  initialize_search config regen verbose w = (r, w') ->
  same_state w w' /\
  match r with
  | Ok (m, c) => forall ty, configured c ty = false -> handle_of m ty = None
  | Raise _ => True
  end.
Proof.
  unfold initialize_search. intros H.
  apply bind_inv in H as [(e & H & ->) | (hn & w1 & H1 & H)];
    [by apply setup_if_configured_inv in H as [? _] |].
  apply setup_if_configured_inv in H1 as [S1 N1].
  apply bind_inv in H as [(e & H & ->) | (hm & w2 & H2 & H)];
    [apply setup_if_configured_inv in H as [? _];
     split; [by eapply same_state_trans | done] |].
  apply setup_if_configured_inv in H2 as [S2 N2].
  pose proof (same_state_trans _ _ _ S1 S2) as S12.
  apply bind_inv in H as [(e & H & ->) | (hl & w3 & H3 & H)];
    [apply setup_if_configured_inv in H as [? _];
     split; [by eapply same_state_trans | done] |].
  apply setup_if_configured_inv in H3 as [S3 N3].
  pose proof (same_state_trans _ _ _ S12 S3) as S123.
  apply bind_inv in H as [(e & H & ->) | (hi & w4 & H4 & H)];
    [apply setup_if_configured_inv in H as [? _];
     split; [by eapply same_state_trans | done] |].
  apply setup_if_configured_inv in H4 as [S4 N4].
  inversion H; subst.
  split; [by eapply same_state_trans |].
  intros [] Hty; simpl in *; apply bool_decide_eq_false in Hty;
    rewrite <- eq_None_not_Some in Hty; rewrite Hty in *;
    [rewrite N1 | rewrite N2 | rewrite N3 | rewrite N4]; done.
Qed.

(** What [initialize_processor] makes of the node at the log path. *)
Lemma initialize_processor_inv config verbose w r w' :
  initialize_processor config verbose w = (r, w') ->
  w' = w /\
  match r with
  | Ok conv =>
      match logfile w with
      | RegularFile Malformed => False
      | RegularFile (Document doc) => meta_log conv = doc
      | _ => meta_log conv = VDict ∅ /\ chat_session conv = VStr EmptyString
      end
  | Raise _ => True
  end.
Proof.
  unfold initialize_processor.
  destruct (conversation_config_from_dictionary B config verbose) as [conv |];
    run; [| intros H; by inversion H].
  destruct (logfile w) as [| | [| doc]]; simpl; intros H; by inversion H.
Qed.

(** C9: at start-up the node at the log path decides the conversation
    state.  A regular file that parses becomes [meta_log] as it is; a
    regular file that does not parse makes [initialize_processor] raise,
    and with it the start-up, which installs no conversation state at all;
    without a regular file [meta_log] is the empty mapping and
    [chat_session] the empty string. *)
Theorem initialize_processor_loads_log (config : value) (verbose : bool)
    (w : World) (conv0 : ConversationProcessorConfig) :
  conversation_config_from_dictionary B config verbose = Some conv0 ->
  match logfile w with
  | RegularFile (Document doc) =>
      exists conv, initialize_processor config verbose w = (Ok conv, w) /\
                   meta_log conv = doc
  | RegularFile Malformed =>
      initialize_processor config verbose w = (Raise JSONDecodeError, w) /\
      forall regen r w',
        main config regen verbose w = (r, w') ->
        completed r = false /\ conversation w' = conversation w /\
        logfile w' = logfile w
  | Absent | NotRegularFile =>
      exists conv, initialize_processor config verbose w = (Ok conv, w) /\
                   meta_log conv = VDict ∅ /\ chat_session conv = VStr EmptyString
  end.
Proof.
  intros Hcfg. unfold initialize_processor. rewrite Hcfg.
  destruct (logfile w) as [| | [| doc]] eqn:Hfile; run; rewrite Hfile; simpl;
    try (eexists; split; [reflexivity | done]).
  split; [done |].
  intros regen r w' Hmain. unfold main in Hmain.
  apply bind_inv in Hmain as [(e & H & ->) | ([m c] & w1 & H1 & H)].
  { apply initialize_search_inv in H as [(_ & _ & ? & ?) _].
    repeat split; congruence. }
  apply initialize_search_inv in H1 as [(_ & _ & Hc1 & Hf1) _].
  unfold set_model, set_search_config in H. run.
  unfold initialize_processor in H. rewrite Hcfg in H. run.
  rewrite Hf1, Hfile in H. simpl in H. inversion H; subst. simpl.
  repeat split; congruence.
Qed.

(** *** Session records form a chain *)

Lemma session_bounds_record summary first past :
  session_bounds (session_record summary (VInt first) past) = Some (first, past).
Proof.
  unfold session_bounds, session_record, py_getitem.
  rewrite (lookup_insert_ne _ "summary" "session-start") by done.
  rewrite lookup_insert_eq.
  rewrite (lookup_insert_ne _ "summary" "session-end") by done.
  rewrite (lookup_insert_ne _ "session-start" "session-end") by done.
  by rewrite lookup_insert_eq.
Qed.

Lemma chained_snoc records : forall from record,
  chained from (records ++ [record]) =
    match chained from records with
    | Some past => chained past [record]
    | None => None
    end.
Proof.
  induction records as [| r rest IH]; intros from record; [done |].
  simpl. destruct (session_bounds r) as [[first past] |]; [| done].
  destruct (Z.eqb first from && Z.leb first past); [apply IH | done].
Qed.

Lemma chained_last records : forall from past,
  records <> [] ->
  chained from records = Some past ->
  exists record, last records = Some record /\
                 py_getitem record "session-end" = Ok (VInt past).
Proof.
  induction records as [| r rest IH]; intros from past Hne H; [done |].
  simpl in H. destruct (session_bounds r) as [[first past'] |] eqn:Hb; [| done].
  destruct (Z.eqb first from && Z.leb first past'); [| done].
  destruct rest as [| r' rest'].
  - simpl in H. injection H as <-. exists r. split; [done |].
    unfold session_bounds in Hb.
    destruct (py_getitem r "session-start") as [[] |]; try done.
    destruct (py_getitem r "session-end") as [[] |]; try done.
    by injection Hb as _ ->.
  - destruct (IH _ _ ltac:(done) H) as (record & Hl & He).
    exists record. split; [| done].
    by rewrite last_cons, Hl.
Qed.

(** Two neighbours of a chain: the later one starts where the earlier one
    ends, and neither ends before it starts. *)
Lemma chained_neighbours before : forall from S1 S2 after past,
  chained from (before ++ S1 :: S2 :: after) = Some past ->
  exists first1 past1 first2 past2,
    session_bounds S1 = Some (first1, past1) /\
    session_bounds S2 = Some (first2, past2) /\
    first2 = past1 /\ first1 <= past1 /\ first2 <= past2.
Proof.
  induction before as [| r rest IH]; intros from S1 S2 after past H; simpl in H.
  - destruct (session_bounds S1) as [[first1 past1] |]; [| done].
    destruct (Z.eqb first1 from && Z.leb first1 past1) eqn:Hc1; [| done].
    destruct (session_bounds S2) as [[first2 past2] |]; [| done].
    destruct (Z.eqb first2 past1 && Z.leb first2 past2) eqn:Hc2; [| done].
    apply andb_true_iff in Hc1 as [_ Hl1]. apply andb_true_iff in Hc2 as [Hf2 Hl2].
    apply Z.eqb_eq in Hf2. apply Z.leb_le in Hl1, Hl2.
    exists first1, past1, first2, past2. done.
  - destruct (session_bounds r) as [[first past'] |]; [| done].
    destruct (Z.eqb first from && Z.leb first past'); [| done].
    by eapply IH.
Qed.

Lemma chained_first from record rest past :
  chained from (record :: rest) = Some past ->
  exists past1, session_bounds record = Some (from, past1).
Proof.
  simpl. destruct (session_bounds record) as [[first past1] |]; [| done].
  destruct (Z.eqb first from && Z.leb first past1) eqn:Hc; [| done].
  apply andb_true_iff in Hc as [Hf _]. apply Z.eqb_eq in Hf. subst.
  by exists past1.
Qed.

(** *** Logs stay well formed *)

Lemma well_formed_after_turn d record :
  well_formed_log (VDict d) = true ->
  well_formed_log
    (VDict (<["chat" := VList (entries_under "chat" (VDict d) ++ [record])]> d))
    = true.
Proof.
  unfold well_formed_log, entries_under.
  rewrite (lookup_insert_ne _ "chat" "session") by done.
  rewrite lookup_insert_eq.
  destruct (d !! "session") as [[| | | | [| first rest] |] |]; try done.
  destruct (d !! "chat") as [[| | | | turns |] |]; try done.
  destruct (chained 0 (first :: rest)) as [past |]; [| done].
  rewrite !Z.leb_le, length_app. simpl. lia.
Qed.

Lemma well_formed_after_shutdown d summary first chat_log past :
  well_formed_log (VDict d) = true ->
  previous_session_end (VDict d) = Ok first ->
  d !! "chat" = Some chat_log ->
  py_len chat_log = Ok past ->
  well_formed_log
    (VDict (<["session" :=
               VList (entries_under "session" (VDict d) ++
                      [session_record summary first past])]> d)) = true.
Proof.
  unfold well_formed_log, entries_under, previous_session_end, py_get.
  intros Hwf Hprev Hchat Hlen.
  rewrite lookup_insert_eq.
  rewrite (lookup_insert_ne _ "session" "chat") by done.
  rewrite Hchat in *.
  destruct (d !! "session") as [[| | | | [| r rest] |] |] eqn:Hs; try done.
  - destruct chat_log as [| | | | turns |]; try done.
    destruct (chained 0 (r :: rest)) as [e |] eqn:Hch; [| done].
    apply Z.leb_le in Hwf.
    destruct (chained_last (r :: rest) 0 e ltac:(done) Hch) as (prev & Hl & He).
    cbv [default from_option id and_then] in Hprev.
    unfold py_last in Hprev. rewrite Hl in Hprev.
    simpl in Hprev. rewrite He in Hprev. injection Hprev as <-.
    simpl in Hlen. injection Hlen as <-.
    cbn [app]. rewrite app_comm_cons, chained_snoc, Hch. simpl.
    rewrite session_bounds_record, Z.eqb_refl.
    destruct (Z.leb_spec e (Z.of_nat (length turns))); [| lia].
    simpl. apply Z.leb_refl.
  - simpl in Hprev. rewrite lookup_insert_eq in Hprev. injection Hprev as <-.
    destruct chat_log as [| | | | turns |]; try done.
    simpl in Hlen. injection Hlen as <-.
    simpl. rewrite session_bounds_record. simpl.
    destruct (Z.leb_spec 0 (Z.of_nat (length turns))); [| lia].
    apply Z.leb_refl.
Qed.

(** A well-formed log that is not empty has its chat sequence. *)
Lemma well_formed_has_chat log :
  well_formed_log log = true -> truthy log = true ->
  exists d turns, log = VDict d /\ d !! "chat" = Some (VList turns).
Proof.
  destruct log as [| | | | | d]; try done.
  unfold well_formed_log, truthy. intros Hwf Ht.
  destruct (d !! "chat") as [[| | | | turns |] |] eqn:Hchat;
    try (destruct (d !! "session") as [[| | | | [| r rest] |] |]; done).
  - by exists d, turns.
  - destruct (d !! "session") as [[| | | | [| r rest] |] |]; try done.
    by rewrite Hwf in Ht.
Qed.

Lemma regenerate_keeps t w r w' :
  regenerate t w = (r, w') ->
  search_config w' = search_config w /\ conversation w' = conversation w /\
  logfile w' = logfile w.
Proof.
  intros Hr. unfold regenerate in Hr.
  destruct w as [[ns ms ls ims] [cn cm cl ci] conv f cs].
  destruct t as [[]|], cn, cm, cl, ci; run; unfold set_model in Hr;
    setups Hr; inversion Hr; subst; clear Hr; done.
Qed.

Lemma main_inv config regen verbose w0 w :
  main config regen verbose w0 = (Ok tt, w) ->
  logfile w = logfile w0 /\
  registry_consistent w /\
  exists conv,
    conversation w = Some conv /\
    match logfile w0 with
    | RegularFile Malformed => False
    | RegularFile (Document doc) => meta_log conv = doc
    | _ => meta_log conv = VDict ∅ /\ chat_session conv = VStr EmptyString
    end.
Proof.
  unfold main. intros H.
  apply bind_inv in H as [(e & _ & ?) | ([m c] & w1 & H1 & H)]; [done |].
  apply initialize_search_inv in H1 as [(_ & _ & _ & Hf1) Hcons].
  unfold set_model, set_search_config in H.
  unfold mbind at 1, M_bind in H. unfold mbind at 1, M_bind in H.
  apply bind_inv in H as [(e & _ & ?) | (pc & w2 & H2 & H)]; [done |].
  apply initialize_processor_inv in H2 as [-> Hpc]. simpl in Hpc.
  unfold set_conversation in H. inversion H; subst. simpl.
  split; [done | split; [exact Hcons |]].
  exists pc. rewrite <- Hf1. done.
Qed.

Lemma healthy_after req w : healthy w -> healthy (after req w).
Proof.
  intros [Hconv Hfile]. unfold healthy.
  destruct req as [q n t | t | gpt q | gpt]; simpl.
  - destruct (search q n t w) as [r w'] eqn:H. simpl.
    apply search_same_state in H as (_ & _ & -> & ->). done.
  - destruct (regenerate t w) as [r w'] eqn:H. simpl.
    apply regenerate_keeps in H as (_ & -> & ->). done.
  - destruct (chat gpt q w) as [r w'] eqn:H. simpl.
    apply chat_turn in H as (_ & _ & -> & Hr). split; [| done].
    unfold meta_log_of in Hr.
    destruct r as [v | e].
    + destruct Hr as (_ & _ & d & record & Hd & _ & Hnew).
      destruct (conversation w) as [conv |]; [| done].
      destruct (conversation w') as [conv' |]; [| done].
      simpl in *. injection Hd as Hd. injection Hnew as ->.
      rewrite Hd in Hconv. by apply well_formed_after_turn.
    + destruct (conversation w') as [conv' |]; [| done].
      destruct (conversation w) as [conv |]; [| done].
      simpl in Hr. by injection Hr as ->.
  - destruct (shutdown_event gpt w) as [r w'] eqn:H. simpl.
    destruct (conversation w) as [conv |] eqn:Hc.
    2:{ unfold shutdown_event, mbind, M_bind, get_conversation in H.
        rewrite Hc in H. inversion H; subst. by rewrite Hc. }
    destruct (truthy (meta_log conv)) eqn:Ht.
    2:{ rewrite (shutdown_with_empty_log_guard gpt w conv Hc Ht) in H.
        inversion H; subst. by rewrite Hc. }
    eapply shutdown_event_inv in H as (_ & _ & _ & Hr); [| done..].
    unfold meta_log_of in Hr. destruct r as [[] | e].
    + destruct Hr as (d & summary & first & chat_log & past & Hd & _ & Hprev
                      & Hchat & Hlen & Hnew & -> & _).
      rewrite Hd in Hconv.
      pose proof (well_formed_after_shutdown d summary first chat_log past
                    Hconv Hprev Hchat Hlen) as Hwf.
      split; [| done].
      destruct (conversation w') as [conv' |]; [| done].
      simpl in Hnew. by injection Hnew as ->.
    + destruct Hr as (-> & _ & [Hsame | Hbad]).
      * split; [| done]. rewrite Hc in Hsame.
        destruct (conversation w') as [conv' |]; [| done].
        simpl in Hsame. by injection Hsame as ->.
      * rewrite Hbad in Hfile. done.
Qed.

(** Every world a deployment can reach has a well-formed log, in memory
    and on file. *)
Lemma reachable_healthy w : reachable w -> healthy w.
Proof.
  induction 1 as [config regen verbose w Hmain
                 | req w _ IH
                 | config regen verbose w w' _ IH Hmain].
  - apply main_inv in Hmain as (Hf & _ & conv & Hc & Hlog). simpl in *.
    unfold healthy. rewrite Hc, Hf. destruct Hlog as [-> _]. done.
  - by apply healthy_after.
  - apply main_inv in Hmain as (Hf & _ & conv & Hc & Hlog). simpl in *.
    destruct IH as [_ Hfile]. unfold healthy. rewrite Hc, Hf.
    destruct (logfile w) as [| | [| doc]]; try done.
    + destruct Hlog as [-> _]. done.
    + by rewrite Hlog.
Qed.

Lemma session_record_start summary first past :
  py_getitem (session_record summary first past) "session-start" = Ok first.
Proof.
  unfold session_record, py_getitem.
  rewrite (lookup_insert_ne _ "summary" "session-start") by done.
  by rewrite lookup_insert_eq.
Qed.

Lemma session_record_end summary first past :
  py_getitem (session_record summary first past) "session-end" = Ok (VInt past).
Proof.
  unfold session_record, py_getitem.
  rewrite (lookup_insert_ne _ "summary" "session-end") by done.
  rewrite (lookup_insert_ne _ "session-start" "session-end") by done.
  by rewrite lookup_insert_eq.
Qed.


(** *** The registry under regeneration *)

(** The handle of a type that is not to be rebuilt is not assigned, also
    when a setup raises. *)
Lemma regenerate_frame t w r w' :
  regenerate t w = (r, w') ->
  forall ty, to_rebuild t (search_config w) ty = false ->
             handle_of (model w') ty = handle_of (model w) ty.
Proof.
  intros Hr. unfold regenerate, to_rebuild in Hr |- *.
  destruct w as [[ns ms ls ims] [cn cm cl ci] conv f cs].
  destruct t as [[]|], cn, cm, cl, ci; run; unfold set_model in Hr;
    setups Hr;
    inversion Hr; subst; clear Hr; intros [] Hty; simpl in *;
    solve [reflexivity | discriminate].
Qed.

Lemma consistent_after req w : registry_consistent w -> registry_consistent (after req w).
Proof.
  intros Hcons. unfold registry_consistent.
  destruct req as [q n t | t | gpt q | gpt]; simpl.
  - destruct (search q n t w) as [r w'] eqn:H. simpl.
    apply search_same_state in H as (-> & -> & _). exact Hcons.
  - destruct (regenerate t w) as [r w'] eqn:H. simpl.
    pose proof (regenerate_frame _ _ _ _ H) as Hframe.
    apply regenerate_keeps in H as (Hcfg & _). rewrite Hcfg.
    intros ty Hty. rewrite Hframe; [by apply Hcons |].
    unfold to_rebuild. rewrite Hty. apply andb_false_r.
  - destruct (chat gpt q w) as [r w'] eqn:H. simpl.
    apply chat_turn in H as (-> & -> & _). exact Hcons.
  - destruct (shutdown_event gpt w) as [r w'] eqn:H. simpl.
    destruct (conversation w) as [conv |] eqn:Hc.
    2:{ unfold shutdown_event, mbind, M_bind, get_conversation in H.
        rewrite Hc in H. inversion H; subst. exact Hcons. }
    destruct (truthy (meta_log conv)) eqn:Ht.
    2:{ rewrite (shutdown_with_empty_log_guard gpt w conv Hc Ht) in H.
        inversion H; subst. exact Hcons. }
    eapply shutdown_event_inv in H as (-> & -> & _); [| done..]. exact Hcons.
Qed.

(** In every reachable world a content type without configuration has no
    handle. *)
Lemma reachable_consistent w : reachable w -> registry_consistent w.
Proof.
  induction 1 as [config regen verbose w Hmain
                 | req w _ IH
                 | config regen verbose w w' _ IH Hmain].
  - by apply main_inv in Hmain as (_ & ? & _).
  - by apply consistent_after.
  - by apply main_inv in Hmain as (_ & ? & _).
Qed.

(** C8: [regenerate] rebuilds the handles of exactly the content types
    that the filter selects and that are configured: when it returns,
    each of them holds the handle its setup has just produced, and the
    setups called are those of these types, in priority order.  The handle
    of every other type (not selected, or not configured) is the one it
    was, also when a setup raises; so an unconfigured type whose handle is
    unset keeps it unset, which in every reachable world is every
    unconfigured type.  The configuration, the conversation and the log
    file are not touched. *)
Theorem regenerate_rebuilds_selected (t : option SearchType) (w w' : World)
    (r : Result value) :
  regenerate t w = (r, w') ->
  (search_config w' = search_config w /\ conversation w' = conversation w /\
   logfile w' = logfile w) /\
  (forall ty, to_rebuild t (search_config w) ty = false ->
              handle_of (model w') ty = handle_of (model w) ty) /\
  (forall ty, configured (search_config w) ty = false ->
              handle_of (model w) ty = None -> handle_of (model w') ty = None) /\
  (reachable w ->
   forall ty, configured (search_config w) ty = false ->
              handle_of (model w') ty = None) /\
  (completed r = true ->
     (forall ty, to_rebuild t (search_config w) ty = true ->
        exists h, setup_of (search_config w) ty = Some (Ok h) /\
                  handle_of (model w') ty = Some h) /\
     calls w' = calls w ++
       ((fun ty => CallSetup ty true) <$>
          List.filter (to_rebuild t (search_config w)) priority)).
Proof.
  intros Hr.
  pose proof (regenerate_frame _ _ _ _ Hr) as Hframe.
  assert (Hunset : forall ty, configured (search_config w) ty = false ->
                     handle_of (model w) ty = None ->
                     handle_of (model w') ty = None).
  { intros ty Hc Hn. rewrite Hframe; [exact Hn |].
    unfold to_rebuild. rewrite Hc. apply andb_false_r. }
  split; [by eapply regenerate_keeps |].
  split; [exact Hframe |]. split; [exact Hunset |]. split.
  - intros Hreach ty Hc. apply Hunset; [exact Hc |].
    by apply (reachable_consistent w Hreach).
  - intros Hok. unfold regenerate, to_rebuild in *.
    destruct w as [[ns ms ls ims] [cn cm cl ci] conv f cs].
    destruct t as [[]|], cn, cm, cl, ci; run; unfold set_model in Hr;
      setups Hr;
      inversion Hr; subst; clear Hr; try discriminate Hok;
      (split;
       [ intros [] Hty; simpl in *;
         first [ discriminate Hty
               | eexists; split; [| reflexivity];
                 repeat match goal with H : _ = Ok _ |- _ => rewrite H end;
                 reflexivity ]
       | simpl; rewrite <- ?app_assoc, ?app_nil_r; reflexivity ]).
Qed.

(** The session records of a reachable world, read as a chain. *)
Lemma reachable_sessions w :
  reachable w ->
  log_entries "session" w = [] \/
  exists past, chained 0 (log_entries "session" w) = Some past /\
               past <= Z.of_nat (log_length "chat" w).
Proof.
  intros Hr. apply reachable_healthy in Hr as [Hwf _].
  unfold log_length, log_entries, meta_log_of.
  destruct (conversation w) as [conv |]; [| by left].
  cbn [fmap option_fmap option_map].
  destruct (meta_log conv) as [| | | | | d]; try done.
  unfold well_formed_log in Hwf. unfold entries_under.
  destruct (d !! "session") as [[| | | | [| r rest] |] |]; try done;
    try by left.
  destruct (d !! "chat") as [[| | | | turns |] |]; try done.
  destruct (chained 0 (r :: rest)) as [past |]; [| done].
  right. exists past. split; [done |]. by apply Z.leb_le.
Qed.

(** C4: session records chain.  A shutdown that finds the record [S1] last
    under "session" appends a record [S2] whose session-start is the
    session-end of [S1]; a shutdown that finds no "session" key makes the
    first record, with session-start 0; in both cases session-end is the
    length of the chat sequence at that moment.  In every world the
    deployment can reach, a record starts where the one before it ended,
    the first one starts at 0, no record ends before it starts (ranges
    neither overlap nor shrink), and the last one ends within the chat
    sequence. *)
Theorem session_ranges_chain :
  (forall gpt w conv d earlier S1 w',
     conversation w = Some conv ->
     meta_log conv = VDict d ->
     d !! "session" = Some (VList (earlier ++ [S1])) ->
     shutdown_event gpt w = (Ok tt, w') ->
     exists S2 past,
       log_entries "session" w' = earlier ++ [S1; S2] /\
       py_getitem S2 "session-start" = py_getitem S1 "session-end" /\
       and_then (py_getitem (VDict d) "chat") py_len = Ok past /\
       py_getitem S2 "session-end" = Ok (VInt past)) /\
  (forall gpt w conv d w',
     conversation w = Some conv ->
     meta_log conv = VDict d ->
     d <> ∅ ->
     d !! "session" = None ->
     shutdown_event gpt w = (Ok tt, w') ->
     exists S2 past,
       log_entries "session" w' = [S2] /\
       py_getitem S2 "session-start" = Ok (VInt 0) /\
       and_then (py_getitem (VDict d) "chat") py_len = Ok past /\
       py_getitem S2 "session-end" = Ok (VInt past)) /\
  (forall w,
     reachable w ->
     (forall before S1 S2 after,
        log_entries "session" w = before ++ S1 :: S2 :: after ->
        exists first1 past1 first2 past2,
          session_bounds S1 = Some (first1, past1) /\
          session_bounds S2 = Some (first2, past2) /\
          first2 = past1 /\ first1 <= past1 /\ past1 <= past2) /\
     (forall S rest,
        log_entries "session" w = S :: rest ->
        exists past, session_bounds S = Some (0, past)) /\
     (forall before S,
        log_entries "session" w = before ++ [S] ->
        exists past, py_getitem S "session-end" = Ok (VInt past) /\
                     past <= Z.of_nat (log_length "chat" w))).
Proof.
  split; [| split].
  - intros gpt w conv d earlier S1 w' Hc Hlog Hs H.
    assert (Ht : truthy (meta_log conv) = true).
    { rewrite Hlog. apply truthy_dict. intros ->. by rewrite lookup_empty in Hs. }
    eapply shutdown_event_inv in H
      as (_ & _ & _ & d' & summary & first & chat_log & past & Hd & _ & Hprev
          & Hchat & Hlen & Hnew & _); [| done..].
    rewrite Hlog in Hd. injection Hd as <-.
    exists (session_record summary first past), past.
    unfold log_entries. rewrite Hnew. unfold entries_under.
    rewrite lookup_insert_eq, Hs, <- app_assoc.
    unfold previous_session_end, py_get in Hprev. rewrite Hs in Hprev.
    cbv [default from_option id and_then] in Hprev.
    unfold py_last in Hprev. rewrite last_snoc in Hprev.
    rewrite session_record_start, session_record_end. simpl py_getitem.
    rewrite Hchat. simpl. by rewrite Hprev, Hlen.
  - intros gpt w conv d w' Hc Hlog Hne Hs H.
    assert (Ht : truthy (meta_log conv) = true).
    { rewrite Hlog. by apply truthy_dict. }
    eapply shutdown_event_inv in H
      as (_ & _ & _ & d' & summary & first & chat_log & past & Hd & _ & Hprev
          & Hchat & Hlen & Hnew & _); [| done..].
    rewrite Hlog in Hd. injection Hd as <-.
    exists (session_record summary first past), past.
    unfold log_entries. rewrite Hnew. unfold entries_under.
    rewrite lookup_insert_eq, Hs.
    unfold previous_session_end, py_get in Hprev. rewrite Hs in Hprev.
    simpl in Hprev. rewrite lookup_insert_eq in Hprev. injection Hprev as <-.
    rewrite session_record_start, session_record_end. simpl py_getitem.
    rewrite Hchat. simpl. by rewrite Hlen.
  - intros w Hr. apply reachable_sessions in Hr as [Hnil | (past & Hch & Hle)].
    { rewrite Hnil. repeat split.
      - intros before S1 S2 after0 H. by destruct before.
      - done.
      - intros before S H. by destruct before. }
    repeat split.
    + intros before S1 S2 after0 H. rewrite H in Hch.
      destruct (chained_neighbours _ _ _ _ _ _ Hch)
        as (f1 & p1 & f2 & p2 & ? & ? & ? & ? & ?).
      exists f1, p1, f2, p2. repeat split; try done. lia.
    + intros S rest H. rewrite H in Hch. by eapply chained_first.
    + intros before S H. rewrite H in Hch.
      assert (Hne : before ++ [S] <> []) by (by destruct before).
      destruct (chained_last _ _ _ Hne Hch) as (record & Hl & He).
      rewrite last_snoc in Hl. injection Hl as <-. by exists past.
Qed.

(** *** Shutdown over a log the handlers have built *)




(** ** Further properties of the handlers *)

(** X1: when [initialize_search] returns, the configuration it returns is
    the one read from the dictionary, a content type has a handle exactly
    when it is configured, the setups called are those of the configured
    types, in the order Notes, Music, Ledger, Image and with the caller's
    [regenerate] flag, and none of the globals has been assigned. *)
Theorem initialize_search_registers (config : value) (regen verbose : bool)
    (w w' : World) (m : SearchModels) (c : SearchConfig) :
  initialize_search config regen verbose w = (Ok (m, c), w') ->
  same_state w w' /\
  c = {| notes := text_config_from_dictionary B config "org" verbose;
         music := text_config_from_dictionary B config "music" verbose;
         ledger := text_config_from_dictionary B config "ledger" verbose;
         image := image_config_from_dictionary B config verbose |} /\
  (forall ty, is_Some (handle_of m ty) <-> configured c ty = true) /\
  calls w' = calls w ++
    ((fun ty => CallSetup ty regen) <$> List.filter (configured c) priority).
Proof.
  unfold initialize_search, setup_if_configured. intros H.
  destruct (text_config_from_dictionary B config "org" verbose) as [cn |];
    destruct (text_config_from_dictionary B config "music" verbose) as [cm |];
    destruct (text_config_from_dictionary B config "ledger" verbose) as [cl |];
    destruct (image_config_from_dictionary B config verbose) as [ci |];
    run; setups H; inversion H; subst; clear H;
    (split; [repeat split |]); (split; [reflexivity |]);
    (split;
     [ intros []; unfold handle_of, configured;
       rewrite bool_decide_eq_true, fmap_is_Some; simpl;
       split; intros [x Hx]; first [discriminate Hx | by eexists]
     | simpl; rewrite <- ?app_assoc, ?app_nil_r; reflexivity ]).
Qed.

(** The conversation state that a start-up installs. *)
Lemma main_conversation config regen verbose w0 w :
  main config regen verbose w0 = (Ok tt, w) ->
  exists conv0,
    conversation_config_from_dictionary B config verbose = Some conv0 /\
    conversation w =
      Some match logfile w0 with
           | RegularFile (Document doc) => with_meta_log doc conv0
           | _ => with_chat_session (VStr EmptyString)
                    (with_meta_log (VDict ∅) conv0)
           end.
Proof.
  unfold main. intros H.
  apply bind_inv in H as [(e & _ & ?) | ([m c] & w1 & H1 & H)]; [done |].
  apply initialize_search_inv in H1 as [(_ & _ & _ & Hf1) _].
  unfold set_model, set_search_config in H.
  unfold mbind at 1, M_bind in H. unfold mbind at 1, M_bind in H.
  apply bind_inv in H as [(e & _ & ?) | (pc & w2 & H2 & H)]; [done |].
  unfold initialize_processor in H2.
  destruct (conversation_config_from_dictionary B config verbose) as [conv0 |];
    [| by inversion H2].
  exists conv0. split; [done |].
  run. rewrite Hf1 in H2.
  unfold set_conversation in H.
  destruct (logfile w0) as [| | [| doc]]; simpl in H2; inversion H2; subst;
    inversion H; subst; reflexivity.
Qed.

(** X2: what a shutdown saves is what the next process loads.  After a
    shutdown that returns, a start-up over the file it has written installs
    as [meta_log] exactly the [meta_log] the first process ended with, chat
    records included.  The transcript is not part of it: [chat_session] of
    the new process is the one of its freshly built configuration. *)
Theorem shutdown_then_restart_restores_log (gpt : Gpt) (w w' w'' : World)
    (conv : ConversationProcessorConfig) (config : value) (regen verbose : bool) :
  conversation w = Some conv ->
  truthy (meta_log conv) = true ->
  shutdown_event gpt w = (Ok tt, w') ->
  main config regen verbose (fresh_world (logfile w')) = (Ok tt, w'') ->
  meta_log_of w'' = meta_log_of w' /\
  log_entries "chat" w'' = log_entries "chat" w /\
  chat_session_of w'' =
    chat_session <$> conversation_config_from_dictionary B config verbose.
Proof.
  intros Hc Ht Hdown Hmain.
  eapply shutdown_event_inv in Hdown
    as (_ & _ & _ & d & summary & first & chat_log & past & Hd & _ & _ & _ & _
        & Hnew & Hfile & _); [| done..].
  apply main_conversation in Hmain as (conv0 & Hcfg & Hconv).
  simpl in Hconv. rewrite Hfile in Hconv.
  unfold log_entries, meta_log_of, chat_session_of in *.
  rewrite Hconv, Hcfg, Hc. simpl. rewrite Hd.
  rewrite Hnew. split; [reflexivity | split; [| reflexivity]].
  unfold entries_under.
  by rewrite (lookup_insert_ne _ "session" "chat").
Qed.

(** X3: which request touches which part of the state.  No request changes
    [search_config]; only [regenerate] changes the registry of handles;
    only [chat] and [shutdown_event] change the conversation state, and the
    latter leaves the transcript alone; only [shutdown_event] changes the
    log file. *)
Theorem requests_frame (req : request) (w : World) :
  search_config (after req w) = search_config w /\
  match req with
  | Search _ _ _ =>
      model (after req w) = model w /\
      conversation (after req w) = conversation w /\
      logfile (after req w) = logfile w
  | Regenerate _ =>
      conversation (after req w) = conversation w /\
      logfile (after req w) = logfile w
  | Chat _ _ =>
      model (after req w) = model w /\ logfile (after req w) = logfile w
  | Shutdown _ =>
      model (after req w) = model w /\
      chat_session_of (after req w) = chat_session_of w
  end.
Proof.
  destruct req as [q n t | t | gpt q | gpt]; simpl.
  - destruct (search q n t w) as [r w'] eqn:H. simpl.
    by apply search_same_state in H as (? & ? & ? & ?).
  - destruct (regenerate t w) as [r w'] eqn:H. simpl.
    by apply regenerate_keeps in H as (? & ? & ?).
  - destruct (chat gpt q w) as [r w'] eqn:H. simpl.
    by apply chat_turn in H as (? & ? & ? & _).
  - destruct (shutdown_event gpt w) as [r w'] eqn:H. simpl.
    destruct (conversation w) as [conv |] eqn:Hc.
    2:{ unfold shutdown_event, mbind, M_bind, get_conversation in H.
        rewrite Hc in H. by inversion H; subst. }
    destruct (truthy (meta_log conv)) eqn:Ht.
    2:{ rewrite (shutdown_with_empty_log_guard gpt w conv Hc Ht) in H.
        by inversion H; subst. }
    by eapply shutdown_event_inv in H as (? & ? & ? & _).
Qed.

(** X4: a turn can fail after the transcript has been replaced.  When the
    log in memory is not a dictionary (a log file may hold any JSON value)
    and the answer and the prompt have been produced, [chat] raises
    [AttributeError] at [meta_log.get] of line 109: [meta_log] is as it
    was, and [chat_session] is already the new prompt of line 108. *)
Theorem chat_log_failure_keeps_new_prompt (gpt : Gpt) (q : value) (w w1 : World)
    (conv : ConversationProcessorConfig) (metadata response p : value) :
  conversation w = Some conv ->
  converse_with_gpt gpt q (chat_session conv) w = (Ok (metadata, response), w1) ->
  message_to_prompt gpt q (chat_session conv) response = Ok p ->
  (forall d, meta_log conv <> VDict d) ->
  exists w',
    chat gpt q w = (Raise AttributeError, w') /\
    chat_session_of w' = Some p /\
    meta_log_of w' = meta_log_of w /\
    calls w' = calls w1.
Proof.
  intros Hc Hans Hp Hlog.
  pose proof (converse_with_gpt_same_state _ _ _ _ _ _ Hans)
    as (_ & _ & Hc1 & _).
  rewrite Hc in Hc1.
  unfold chat, mbind at 1, M_bind, get_conversation. rewrite Hc. simpl.
  unfold mbind at 1, M_bind. rewrite Hans.
  unfold update_conversation_history.
  unfold mbind at 1, M_bind. unfold mbind at 1, M_bind, lift at 1.
  rewrite Hp.
  unfold mbind at 1, M_bind, get_conversation. rewrite Hc1.
  unfold mbind at 1, M_bind, set_conversation.
  unfold mbind at 1, M_bind, lift at 1.
  unfold meta_log_of, chat_session_of. rewrite Hc.
  destruct (meta_log conv) as [| | | | | d] eqn:Hm; simpl;
    try (by destruct (Hlog d));
    (eexists; split; [reflexivity | simpl; by rewrite ?Hm]).
Qed.

(** X5: a "session" key that holds an empty sequence stops the shutdown.
    The default of [.get] does not apply to a key that is present, so
    [[][-1]] raises [IndexError] once the summarizer has answered; nothing
    is appended and nothing is written. *)
Theorem shutdown_with_empty_session_list_raises (gpt : Gpt) (w : World)
    (conv : ConversationProcessorConfig) (d : gmap string value) (summary : value) :
  conversation w = Some conv ->
  meta_log conv = VDict d ->
  d !! "session" = Some (VList []) ->
  summarize gpt (chat_session conv) "chat" None (openai_api_key conv) = Ok summary ->
  exists w',
    shutdown_event gpt w = (Raise IndexError, w') /\
    meta_log_of w' = meta_log_of w /\
    logfile w' = logfile w /\
    calls w' = calls w ++ [CallSummarize (chat_session conv) "chat" None].
Proof.
  intros Hc Hlog Hs Hsum.
  assert (Ht : truthy (meta_log conv) = true).
  { rewrite Hlog. apply truthy_dict. intros ->. by rewrite lookup_empty in Hs. }
  unfold shutdown_event, mbind at 1, M_bind, get_conversation.
  rewrite Hc, Ht. simpl negb. cbv iota.
  unfold mbind at 1, M_bind, external at 1. rewrite Hsum, Hlog.
  unfold mbind at 1, M_bind, lift at 1, py_get. rewrite Hs. simpl.
  eexists. split; [reflexivity |]. unfold meta_log_of. simpl. by rewrite Hc.
Qed.

(** X6: a shutdown that returns has called the summarizer once, on the
    transcript, and has then written the whole log in one piece: the
    document on file is the [meta_log] in memory, and it is the last thing
    the process did.  Apart from the record appended under "session" the
    log is as it was, and so is the transcript. *)
Theorem shutdown_writes_whole_log (gpt : Gpt) (w w' : World)
    (conv : ConversationProcessorConfig) :
  conversation w = Some conv ->
  truthy (meta_log conv) = true ->
  shutdown_event gpt w = (Ok tt, w') ->
  (exists doc,
     meta_log_of w' = Some doc /\
     logfile w' = RegularFile (Document doc) /\
     calls w' = calls w ++
       [CallSummarize (chat_session conv) "chat" None; WriteLog doc]) /\
  (forall key, key <> "session" -> log_entries key w' = log_entries key w) /\
  chat_session_of w' = chat_session_of w.
Proof.
  intros Hc Ht H.
  eapply shutdown_event_inv in H
    as (_ & _ & Hsess & d & summary & first & chat_log & past & Hd & _ & _ & _
        & _ & Hnew & Hfile & Hcalls); [| done..].
  split; [eauto |]. split; [| done].
  intros key Hk. unfold log_entries. rewrite Hnew.
  unfold meta_log_of. rewrite Hc. simpl. rewrite Hd. unfold entries_under.
  by rewrite lookup_insert_ne.
Qed.

(** X7: a regeneration is not all-or-nothing.  With notes and music
    configured, when the notes setup returns and the music setup raises,
    [regenerate] over every type raises that exception with the notes handle
    already replaced; the music handle is the old one, and ledger and images
    have not been reached. *)
Theorem regenerate_keeps_earlier_rebuilds (w : World)
    (cn cm : TextSearchConfig) (h : TextSearchModel) (e : exn) :
  notes (search_config w) = Some cn ->
  music (search_config w) = Some cm ->
  asymmetric_setup B cn true = Ok h ->
  asymmetric_setup B cm true = Raise e ->
  exists w',
    regenerate None w = (Raise e, w') /\
    notes_search (model w') = Some h /\
    music_search (model w') = music_search (model w) /\
    ledger_search (model w') = ledger_search (model w) /\
    image_search (model w') = image_search (model w) /\
    calls w' = calls w ++ [CallSetup Notes true; CallSetup Music true].
Proof.
  intros Hn Hm Hsn Hsm. unfold regenerate.
  destruct w as [[ns ms ls ims] [cn' cm' cl ci] conv f cs]. simpl in Hn, Hm.
  subst cn' cm'. run. unfold set_model. rewrite Hsn. simpl. rewrite Hsm.
  eexists. split; [reflexivity |]. simpl. by rewrite <- app_assoc.
Qed.

(** X8: a regeneration over every type that returns has done what four
    regenerations, one per type in the order Notes, Music, Ledger, Image,
    do: the same world results, calls included. *)
Theorem regenerate_all_is_sequence (w w' : World) (v : value) :
  regenerate None w = (Ok v, w') ->
  after (Regenerate (Some Image))
    (after (Regenerate (Some Ledger))
       (after (Regenerate (Some Music))
          (after (Regenerate (Some Notes)) w))) = w'.
Proof.
  intros Hr. unfold after, regenerate in *.
  destruct w as [[ns ms ls ims] [cn cm cl ci] conv f cs].
  destruct cn, cm, cl, ci; run; unfold set_model in *;
    setups Hr; inversion Hr; subst; clear Hr; simpl;
    repeat match goal with H : _ = Ok _ |- _ => rewrite H; simpl end;
    reflexivity.
Qed.

(** X9: in a reachable world the image branch of [search] always finds its
    configuration.  When the image backend is the one that answers, its
    handle comes with [search_config.image], so the answer is the backend's
    query collated over the handle's image names and the configured input
    directory: [search] raises only what the backend raises. *)
Theorem search_image_has_config (q : value) (n : option Z)
    (t : option SearchType) (w : World) :
  reachable w ->
  no_query q = false ->
  route t (model w) = Some Image ->
  exists h c,
    image_search (model w) = Some h /\
    image (search_config w) = Some c /\
    (search q n t w).1 =
      and_then (image_search_query B q n h)
        (fun hits => image_search_collate_results B hits (image_names B h)
                       (input_directory B c) n).
Proof.
  intros Hreach Hq Hroute.
  pose proof (reachable_consistent w Hreach Image) as Hcons.
  unfold search. rewrite Hq.
  unfold route, priority, handle_present in Hroute.
  destruct w as [[ns ms ls ims] [cn cm cl ci] conv f cs]. simpl in *.
  destruct ims as [h |].
  2:{ destruct t as [[]|], ns, ms, ls; simpl in Hroute; discriminate. }
  destruct ci as [c |]; [| by discriminate Hcons].
  exists h, c. split; [done | split; [done |]].
  destruct t as [[]|], ns, ms, ls; simpl in Hroute; try discriminate Hroute;
    run; destruct (image_search_query B q n h); simpl; try reflexivity;
    by destruct (image_search_collate_results B _ _ _ n).
Qed.

Lemma collate_entries_empty : collate_entries (VDict ∅) = Ok (VStr EmptyString).
Proof. unfold collate_entries, py_iter. by rewrite map_to_list_empty. Qed.

(** X10: a notes lookup that finds nothing to search still asks for a
    summary.  When the intent is a notes lookup and either the intent carries
    no query or no notes index is set, [search] answers with the empty
    result without calling a backend, and the summarizer is called on the
    empty text; classifier and summarizer are the only calls of the turn. *)
Theorem chat_recall_without_notes (gpt : Gpt) (q : value) (w w' : World)
    (conv : ConversationProcessorConfig) (metadata : value) (r : Result value) :
  conversation w = Some conv ->
  understand gpt q (openai_api_key conv) = Ok metadata ->
  py_eq_str (get_from_dict metadata "intent" "memory-type") "notes" = true ->
  no_query (get_from_dict metadata "intent" "query") = true \/
    notes_search (model w) = None ->
  chat gpt q w = (r, w') ->
  calls w' = calls w ++
    [CallUnderstand q; CallSummarize (VStr EmptyString) "notes" (Some q)].
Proof.
  intros Hc Hu Hnotes Hnone Hchat.
  set (w1 := record_call (CallUnderstand q) w).
  assert (Hsearch : search (get_from_dict metadata "intent" "query")
                      (Some 1) (Some Notes) w1 = (Ok (VDict ∅), w1)).
  { unfold search. destruct Hnone as [-> | Hn]; [done |].
    destruct (no_query _); [done |].
    unfold w1. destruct w as [[ns ms ls ims] cfg conv' f cs]. simpl in Hn.
    subst ns. reflexivity. }
  unfold chat, mbind at 1, M_bind, get_conversation in Hchat.
  rewrite Hc in Hchat. simpl in Hchat.
  unfold mbind at 1, M_bind in Hchat.
  unfold converse_with_gpt, mbind at 1, M_bind, get_conversation in Hchat.
  rewrite Hc in Hchat.
  unfold mbind at 1, M_bind, external at 1 in Hchat.
  rewrite Hu, Hnotes in Hchat. fold w1 in Hchat.
  unfold mbind at 1, M_bind in Hchat. rewrite Hsearch in Hchat.
  unfold mbind at 1, M_bind, lift at 1 in Hchat.
  rewrite collate_entries_empty in Hchat.
  unfold mbind at 1, M_bind, get_conversation in Hchat.
  change (conversation w1) with (conversation w) in Hchat. rewrite Hc in Hchat.
  unfold mbind at 1, M_bind, external at 1 in Hchat.
  destruct (summarize gpt (VStr EmptyString) "notes" (Some q) (openai_api_key conv))
    as [response | e].
  - unfold mret at 1, M_ret in Hchat.
    apply bind_inv in Hchat as [(e & H & ->) | ([] & w4 & H4 & H)].
    + eapply update_conversation_history_inv in H as (_ & _ & _ & -> & _);
        [| unfold meta_log_of; simpl; by rewrite Hc].
      simpl. by rewrite <- app_assoc.
    + eapply update_conversation_history_inv in H4 as (_ & _ & _ & Hcalls & _);
        [| unfold meta_log_of; simpl; by rewrite Hc].
      inversion H; subst. rewrite Hcalls. simpl. by rewrite <- app_assoc.
  - inversion Hchat; subst. simpl. by rewrite <- app_assoc.
Qed.

(** X11: a turn that returns hands back the response it has stored, and the
    transcript it leaves for the next turn is the prompt built from the
    query, the transcript it found and that response. *)
Theorem chat_stores_prompt (gpt : Gpt) (q : value) (w w' : World)
    (conv : ConversationProcessorConfig) (v : value) :
  conversation w = Some conv ->
  chat gpt q w = (Ok v, w') ->
  exists response p,
    py_getitem v "response" = Ok response /\
    py_getitem v "status" = Ok (VStr "ok") /\
    message_to_prompt gpt q (chat_session conv) response = Ok p /\
    chat_session_of w' = Some p.
Proof.
  intros Hc H.
  unfold chat, mbind at 1, M_bind, get_conversation in H.
  rewrite Hc in H. simpl in H.
  apply bind_inv in H as [(e & _ & ?) | ([metadata response] & w1 & H1 & H)];
    [done |].
  apply converse_with_gpt_same_state in H1 as (_ & _ & Hc1 & _).
  apply bind_inv in H as [(e & _ & ?) | ([] & w2 & H2 & H)]; [done |].
  eapply update_conversation_history_inv in H2
    as (_ & _ & _ & _ & _ & _ & (p & Hp & Hs) & _);
    [| unfold meta_log_of; by rewrite Hc1, Hc].
  inversion H; subst. exists response, p.
  simpl. rewrite lookup_insert_eq.
  rewrite (lookup_insert_ne _ "status" "response") by done.
  by rewrite lookup_insert_eq.
Qed.

(** The conversation state after the history has been updated. *)
Lemma update_conversation_history_state gpt q session log metadata response w w' conv :
  conversation w = Some conv ->
  update_conversation_history gpt q session log metadata response w = (Ok tt, w') ->
  exists p updated,
    message_to_prompt gpt q session response = Ok p /\
    conversation w' = Some (with_meta_log updated (with_chat_session p conv)) /\
    calls w' = calls w.
Proof.
  unfold update_conversation_history. intros Hc H.
  unfold mbind at 1, M_bind in H. unfold lift at 1 in H.
  destruct (message_to_prompt gpt q session response) as [p | e]; [| done].
  unfold mbind at 1, M_bind, get_conversation in H. rewrite Hc in H.
  unfold mbind at 1, M_bind, set_conversation in H.
  apply bind_inv in H as [(e & _ & ?) | (chat_log & w2 & H2 & H)]; [done |].
  apply lift_inv in H2 as [_ ->].
  apply bind_inv in H as [(e & _ & ?) | (new_log & w3 & H3 & H)]; [done |].
  apply lift_inv in H3 as [_ ->].
  unfold mbind at 1, M_bind, get_conversation in H. simpl in H.
  apply bind_inv in H as [(e & _ & ?) | (updated & w4 & H4 & H)]; [done |].
  apply lift_inv in H4 as [_ ->].
  inversion H; subst. by exists p, updated.
Qed.

(** A turn that returns: its result, and the state it leaves. *)
Lemma chat_returns_inv gpt q w conv v w' :
  conversation w = Some conv ->
  chat gpt q w = (Ok v, w') ->
  exists response p updated,
    v = VDict (<["status" := VStr "ok"]> (<["response" := response]> ∅)) /\
    message_to_prompt gpt q (chat_session conv) response = Ok p /\
    conversation w' = Some (with_meta_log updated (with_chat_session p conv)).
Proof.
  intros Hc H.
  unfold chat, mbind at 1, M_bind, get_conversation in H.
  rewrite Hc in H. simpl in H.
  apply bind_inv in H as [(e & _ & ?) | ([metadata response] & w1 & H1 & H)];
    [done |].
  apply converse_with_gpt_same_state in H1 as (_ & _ & Hc1 & _).
  rewrite Hc in Hc1.
  apply bind_inv in H as [(e & _ & ?) | ([] & w2 & H2 & H)]; [done |].
  eapply update_conversation_history_state in H2 as (p & updated & Hp & Hc2 & _);
    [| exact Hc1].
  inversion H; subst. by exists response, p, updated.
Qed.

(** The calls of a turn whose intent is not a notes lookup. *)
Lemma chat_converse_calls gpt q w conv metadata r w' :
  conversation w = Some conv ->
  understand gpt q (openai_api_key conv) = Ok metadata ->
  py_eq_str (get_from_dict metadata "intent" "memory-type") "notes" = false ->
  chat gpt q w = (r, w') ->
  calls w' = calls w ++ [CallUnderstand q; CallConverse q (chat_session conv)].
Proof.
  intros Hc Hu Hother Hchat.
  unfold chat, mbind at 1, M_bind, get_conversation in Hchat.
  rewrite Hc in Hchat. simpl in Hchat.
  unfold mbind at 1, M_bind in Hchat.
  unfold converse_with_gpt, mbind at 1, M_bind, get_conversation in Hchat.
  rewrite Hc in Hchat.
  unfold mbind at 1, M_bind, external at 1 in Hchat.
  rewrite Hu, Hother in Hchat.
  unfold mbind at 1, M_bind, get_conversation in Hchat.
  change (conversation (record_call (CallUnderstand q) w))
    with (conversation w) in Hchat.
  rewrite Hc in Hchat.
  unfold mbind at 1, M_bind, external at 1 in Hchat.
  destruct (converse gpt q (chat_session conv) (openai_api_key conv))
    as [response | e].
  - unfold mret at 1, M_ret in Hchat.
    apply bind_inv in Hchat as [(e & H & ->) | ([] & w4 & H4 & H)].
    + eapply update_conversation_history_inv in H as (_ & _ & _ & -> & _);
        [| unfold meta_log_of; simpl; by rewrite Hc].
      simpl. by rewrite <- app_assoc.
    + eapply update_conversation_history_inv in H4 as (_ & _ & _ & Hcalls & _);
        [| unfold meta_log_of; simpl; by rewrite Hc].
      inversion H; subst. rewrite Hcalls. simpl. by rewrite <- app_assoc.
  - inversion Hchat; subst. simpl. by rewrite <- app_assoc.
Qed.

(** X12: the transcript carries over.  After a turn that returned, the
    completion of the next conversational turn is called on the prompt that
    the earlier turn has built from its query, the transcript before it and
    its response. *)
Theorem next_turn_sees_prompt (gpt1 gpt2 : Gpt) (q1 q2 : value) (w w1 w2 : World)
    (conv : ConversationProcessorConfig) (v1 metadata2 : value) (r2 : Result value) :
  conversation w = Some conv ->
  chat gpt1 q1 w = (Ok v1, w1) ->
  understand gpt2 q2 (openai_api_key conv) = Ok metadata2 ->
  py_eq_str (get_from_dict metadata2 "intent" "memory-type") "notes" = false ->
  chat gpt2 q2 w1 = (r2, w2) ->
  exists response1 p,
    py_getitem v1 "response" = Ok response1 /\
    message_to_prompt gpt1 q1 (chat_session conv) response1 = Ok p /\
    calls w2 = calls w1 ++ [CallUnderstand q2; CallConverse q2 p].
Proof.
  intros Hc H1 Hu Hother H2.
  destruct (chat_returns_inv _ _ _ _ _ _ Hc H1)
    as (response1 & p & updated & -> & Hp & Hc1).
  exists response1, p. split; [| split; [exact Hp |]].
  - simpl. rewrite (lookup_insert_ne _ "status" "response") by done.
    by rewrite lookup_insert_eq.
  - by rewrite (chat_converse_calls _ _ _ _ _ _ _ Hc1 Hu Hother H2).
Qed.

(** X13: a log path that is taken by something that is not a regular file
    (a directory, say) defeats every shutdown over a non-empty log: the
    summary is asked for, and then the file cannot be opened.
    [shutdown_event] raises and the node stays as it is. *)
Theorem shutdown_cannot_replace_other_node (gpt : Gpt) (w w' : World)
    (conv : ConversationProcessorConfig) (r : Result unit) :
  conversation w = Some conv ->
  truthy (meta_log conv) = true ->
  logfile w = NotRegularFile ->
  shutdown_event gpt w = (r, w') ->
  completed r = false /\ logfile w' = NotRegularFile /\
  calls w' = calls w ++ [CallSummarize (chat_session conv) "chat" None].
Proof.
  intros Hc Ht Hfile H.
  pose proof H as H'.
  eapply shutdown_event_inv in H' as (_ & _ & _ & Hr); [| done..].
  destruct r as [[] | e].
  - exfalso.
    unfold shutdown_event, mbind at 1, M_bind, get_conversation in H.
    rewrite Hc, Ht in H. simpl in H.
    unfold py_get, py_has_key, write_log, set_conversation in H. run.
    repeat match type of H with
           | context [match ?x with _ => _ end] =>
               lazymatch x with
               | context [match _ with _ => _ end] => fail
               | logfile _ => fail
               | _ => destruct x eqn:?; simpl in H; try discriminate H
               end
           end;
      rewrite ?Hfile in H; simpl in H; discriminate H.
  - destruct Hr as (-> & -> & _). by rewrite Hfile.
Qed.

End Khoj.

(** ** A small deployment

    Notes are not indexed, music is; the language model answers every message
    with the same sentence and asks for a notes lookup when the message is
    "recall". *)

Module Example.

Definition coffee : value := VStr "coffee".

(** The conversation configuration before a log is loaded. *)
Definition blank_conversation (verbose : bool) : ConversationProcessorConfig :=
  {| verbose := verbose; openai_api_key := VStr "key";
     chat_session := VNone; meta_log := VNone |}.

Definition backends : @Backends string string string string (list nat) :=
  {| asymmetric_setup := fun c _ => Ok (String.append c "-index");
     asymmetric_query := fun _ _ => Ok [0%nat];
     asymmetric_collate_results := fun _ es _ =>
       Ok (VList [VDict (<["Entry" := VStr "espresso at nine"]> ∅);
                  VDict (<["Entry" := VStr "beans from the market"]> ∅)]);
     symmetric_ledger_setup := fun c _ => Ok (String.append c "-index");
     symmetric_ledger_query := fun _ _ => Ok [1%nat];
     symmetric_ledger_collate_results := fun _ _ _ =>
       Ok (VList [VDict (<["Entry" := VStr "4.50 cafe"]> ∅)]);
     image_search_setup := fun c _ => Ok (String.append c "-index");
     image_search_query := fun _ _ _ => Ok [2%nat];
     image_search_collate_results := fun _ _ _ _ => Ok (VList []);
     entries := fun _ => VList [VStr "espresso at nine"];
     image_names := fun _ => VList [];
     input_directory := fun _ => VStr "images";
     text_config_from_dictionary := fun config content_type _ =>
       match get_from_dict config "content-type" content_type with
       | VStr path => Some path
       | _ => None
       end;
     image_config_from_dictionary := fun _ _ => None;
     conversation_config_from_dictionary := fun _ verbose =>
       Some (blank_conversation verbose) |}.

Definition intent (memory_type : string) (query : value) : value :=
  VDict (<["intent" := VDict (<["memory-type" := VStr memory_type]>
                              (<["query" := query]> ∅))]> ∅).

Definition gpt : Gpt :=
  {| understand := fun q _ =>
       Ok (if py_eq_str q "recall" then intent "notes" coffee
           else intent "general" VNone);
     converse := fun _ _ _ => Ok (VStr "hello");
     summarize := fun _ _ _ _ => Ok (VStr "a summary");
     message_to_prompt := fun _ _ gpt_message => Ok gpt_message |}.

(** A language model that is out of reach. *)
Definition gpt_down : Gpt :=
  {| understand := fun _ _ => Raise (ExternalError "understand");
     converse := fun _ _ _ => Raise (ExternalError "converse");
     summarize := fun _ _ _ _ => Raise (ExternalError "summarize");
     message_to_prompt := fun _ _ gpt_message => Ok gpt_message |}.

Definition config : value :=
  VDict (<["content-type" := VDict (<["music" := VStr "songs"]> ∅)]> ∅).

(** The first process, started where there is no log file. *)
Definition started : World := (main backends config false false (fresh_world Absent)).2.

(** ... after one turn, *)
Definition talked : World := (chat backends gpt (VStr "hi") started).2.

(** ... and after its shutdown. *)
Definition stopped : World := (shutdown_event gpt talked).2.

(** The second process, started over the log file of the first, *)
Definition restarted : World :=
  (main backends config false false (fresh_world (logfile stopped))).2.

(** ... which is shut down without having served a turn. *)
Definition stopped_again : World := (shutdown_event gpt restarted).2.

(** A deployment with notes as well. *)
Definition config_with_notes : value :=
  VDict (<["content-type" := VDict (<["org" := VStr "notes"]>
                                    (<["music" := VStr "songs"]> ∅))]> ∅).

Definition started_with_notes : World :=
  (main backends config_with_notes false false (fresh_world Absent)).2.

(** A process started over a log that has session records and no chat
    sequence. *)
Definition sessions_only : gmap string value :=
  <["session" := VList [session_record (VStr "earlier") (VInt 0) 0]]> ∅.

Definition started_without_chat : World :=
  (main backends config false false
     (fresh_world (RegularFile (Document (VDict sessions_only))))).2.

(** The conversation state of a world that has one. *)
Definition conversation_of (w : @World string string string string)
  : ConversationProcessorConfig :=
  default {| verbose := false; openai_api_key := VNone;
             chat_session := VNone; meta_log := VNone |} (conversation w).

Definition three_turns : list turn :=
  [(gpt_down, VStr "hi"); (gpt, VStr "hi"); (gpt, VStr "recall")].

Example started_registry :
  handle_of (model started) Music = Some (TextHandle "songs-index") /\
  handle_of (model started) Notes = None /\
  meta_log_of started = Some (VDict ∅).
Proof. vm_compute. done. Qed.

Example sessions_after_two_shutdowns :
  log_length "chat" stopped_again = 1%nat /\
  log_length "session" stopped = 1%nat /\
  log_length "session" stopped_again = 2%nat.
Proof. vm_compute. done. Qed.

(** A filter on notes does not fall through to the music index. *)
Example notes_filter_without_notes_index :
  search backends coffee (Some 5) (Some Notes) started = (Ok (VDict ∅), started) /\
  (search backends coffee (Some 5) None started).1 =
    Ok (VList [VDict (<["Entry" := VStr "espresso at nine"]> ∅);
               VDict (<["Entry" := VStr "beans from the market"]> ∅)]).
Proof. split; reflexivity. Qed.

Lemma reachable_started : reachable backends started.
Proof. by apply (reach_first_start backends config false false). Qed.

Lemma reachable_talked : reachable backends talked.
Proof. exact (reach_request backends (Chat gpt (VStr "hi")) _ reachable_started). Qed.

Lemma reachable_stopped : reachable backends stopped.
Proof. exact (reach_request backends (Shutdown gpt) _ reachable_talked). Qed.

Lemma reachable_restarted : reachable backends restarted.
Proof.
  by apply (reach_restart backends config false false _ _ reachable_stopped).
Qed.

Lemma reachable_stopped_again : reachable backends stopped_again.
Proof. exact (reach_request backends (Shutdown gpt) _ reachable_restarted). Qed.

(** C1 at work: with no filter and no notes index the music backend
    answers, and it alone is called. *)
Lemma search_first_match_wins_witness :
  let out := search backends coffee (Some 5) None started in
  no_query coffee = false /\
  route None (model started) = Some Music /\
  same_state started out.2 /\
  exists new, calls out.2 = calls started ++ new /\
              (length (filter (fun ev => is_query ev = true) new) <= 1)%nat.
Proof.
  split; [reflexivity | split; [reflexivity |]].
  destruct (search_first_match_wins backends coffee (Some 5) None started _ _
              eq_refl (surjective_pairing _)) as (Hsame & new & Hcalls & Hle & _).
  split; [exact Hsame |]. exists new. split; [exact Hcalls | exact Hle].
Defined.

(** C2 at work. *)
Lemma search_without_query_is_noop_witness :
  (VStr EmptyString = VNone \/ VStr EmptyString = VStr EmptyString) /\
  search backends (VStr EmptyString) (Some 5) (Some Image) started = (Ok (VDict ∅), started).
Proof.
  split; [by right |].
  apply search_without_query_is_noop. by right.
Defined.

(** C3 at work: of three turns the first fails at the classifier; the log
    has two records. *)
Lemma chat_log_counts_completed_turns_witness :
  let out := serve backends three_turns started in
  log_entries "chat" started = [] /\
  log_length "chat" out.2 = out.1 /\ out.1 = 2%nat.
Proof.
  split; [reflexivity | split; [| reflexivity]].
  apply (proj1 (proj2 (chat_log_counts_completed_turns backends))).
  reflexivity.
Defined.

(** C4 at work: the two records of the two shutdowns. *)
Lemma session_ranges_chain_witness :
  log_entries "session" stopped_again =
    [session_record (VStr "a summary") (VInt 0) 1;
     session_record (VStr "a summary") (VInt 1) 1] /\
  exists first1 past1 first2 past2,
    session_bounds (session_record (VStr "a summary") (VInt 0) 1)
      = Some (first1, past1) /\
    session_bounds (session_record (VStr "a summary") (VInt 1) 1)
      = Some (first2, past2) /\
    first2 = past1 /\ first1 <= past1 /\ past1 <= past2.
Proof.
  split; [reflexivity |].
  exact (proj1 (proj2 (proj2 (session_ranges_chain backends)) stopped_again
                  reachable_stopped_again)
           [] _ _ [] eq_refl).
Defined.



(** C6 at work: the first process is shut down before any turn. *)
Lemma shutdown_with_empty_log_is_noop_witness :
  conversation started = Some (conversation_of started) /\
  truthy (meta_log (conversation_of started)) = false /\
  shutdown_event gpt started = (Ok tt, started).
Proof.
  split; [reflexivity | split; [reflexivity |]].
  by apply (shutdown_with_empty_log_is_noop gpt started (conversation_of started)).
Defined.

(** C7 at work: a recall over indexed notes. *)
Lemma chat_answers_by_intent_witness :
  let w := started_with_notes in
  let q := VStr "recall" in
  let out := chat backends gpt q w in
  let text := VStr (String.concat newline
                      ["espresso at nine"; "beans from the market"]) in
  conversation w = Some (conversation_of w) /\
  understand gpt q (openai_api_key (conversation_of w)) = Ok (intent "notes" coffee) /\
  calls out.2 =
    calls w ++ [CallUnderstand q; CallQuery Notes coffee;
                CallCollate Notes (Some 1); CallSummarize text "notes" (Some q)].
Proof.
  split; [reflexivity | split; [reflexivity |]].
  destruct (chat_answers_by_intent backends gpt (VStr "recall") started_with_notes
              _ (conversation_of started_with_notes) (intent "notes" coffee) _
              eq_refl eq_refl (surjective_pairing _)) as [Hnotes _].
  destruct (Hnotes eq_refl _
              [VDict (<["Entry" := VStr "espresso at nine"]> ∅);
               VDict (<["Entry" := VStr "beans from the market"]> ∅)]
              ["espresso at nine"; "beans from the market"] _
              (surjective_pairing _) eq_refl) as [Hcalls _].
  - repeat constructor.
  - exact Hcalls.
Defined.

(** C8 at work: regenerating notes, which are not configured, next to
    regenerating music. *)
Lemma regenerate_rebuilds_selected_witness :
  let out := regenerate backends (Some Music) started in
  handle_of (model out.2) Notes = handle_of (model started) Notes /\
  handle_of (model (regenerate backends (Some Notes) started).2) Notes = None /\
  calls out.2 = calls started ++ [CallSetup Music true].
Proof.
  destruct (regenerate_rebuilds_selected backends (Some Music) started _ _
              (surjective_pairing _)) as (_ & Hframe & _ & _ & Hdone).
  destruct (regenerate_rebuilds_selected backends (Some Notes) started _ _
              (surjective_pairing _)) as (_ & _ & _ & Hunset & _).
  split; [exact (Hframe Notes eq_refl) |].
  split; [exact (Hunset reachable_started Notes eq_refl) |].
  exact (proj2 (Hdone eq_refl)).
Defined.

(** C9 at work: a log that does not parse stops the start-up; a log that
    parses is taken as it is. *)
Lemma initialize_processor_loads_log_witness :
  conversation_config_from_dictionary backends config false
    = Some (blank_conversation false) /\
  initialize_processor backends config false
    (fresh_world (RegularFile Malformed))
    = (Raise JSONDecodeError, fresh_world (RegularFile Malformed)) /\
  exists conv,
    initialize_processor backends config false
      (fresh_world (RegularFile (Document (VDict sessions_only))))
      = (Ok conv, fresh_world (RegularFile (Document (VDict sessions_only)))) /\
    meta_log conv = VDict sessions_only.
Proof.
  split; [reflexivity |]. split.
  - pose proof (initialize_processor_loads_log backends config false
                  (fresh_world (RegularFile Malformed))
                  (blank_conversation false) eq_refl) as H.
    cbn [logfile fresh_world] in H. exact (proj1 H).
  - pose proof (initialize_processor_loads_log backends config false
                  (fresh_world (RegularFile (Document (VDict sessions_only))))
                  (blank_conversation false) eq_refl) as H.
    cbn [logfile fresh_world] in H. exact H.
Defined.

(** C10 at work. *)
Lemma shutdown_without_chat_key_raises_witness :
  let w := started_without_chat in
  conversation w = Some (conversation_of w) /\
  meta_log (conversation_of w) = VDict sessions_only /\
  sessions_only <> ∅ /\
  sessions_only !! "chat" = None /\
  exists w', shutdown_event gpt w = (Raise (KeyError "chat"), w') /\
             meta_log_of w' = meta_log_of w /\ logfile w' = logfile w.
Proof.
  assert (Hne : sessions_only <> ∅) by apply insert_non_empty.
  split; [reflexivity | split; [reflexivity | split; [exact Hne |]]].
  split; [reflexivity |].
  destruct (shutdown_without_chat_key_raises gpt started_without_chat
              (conversation_of started_without_chat) sessions_only
              eq_refl eq_refl Hne eq_refl)
    as (e & w' & Hrun & Hlog & Hfile & _ & ->).
  exists w'. split; [exact Hrun | split; [exact Hlog | exact Hfile]].
Defined.

(** *** The further properties at work *)

Definition indexed_models : @SearchModels string string :=
  {| notes_search := Some "notes-index"; music_search := Some "songs-index";
     ledger_search := None; image_search := None |}.

Definition indexed_config : @SearchConfig string string :=
  {| notes := Some "notes"; music := Some "songs";
     ledger := None; image := None |}.

(** The same deployment with a music library that cannot be read. *)
Definition backends_music_down : @Backends string string string string (list nat) :=
  {| asymmetric_setup := fun c _ =>
       if String.eqb c "songs" then Raise (ExternalError "setup")
       else Ok (String.append c "-index");
     asymmetric_query := asymmetric_query backends;
     asymmetric_collate_results := asymmetric_collate_results backends;
     symmetric_ledger_setup := symmetric_ledger_setup backends;
     symmetric_ledger_query := symmetric_ledger_query backends;
     symmetric_ledger_collate_results := symmetric_ledger_collate_results backends;
     image_search_setup := image_search_setup backends;
     image_search_query := image_search_query backends;
     image_search_collate_results := image_search_collate_results backends;
     entries := entries backends;
     image_names := image_names backends;
     input_directory := input_directory backends;
     text_config_from_dictionary := text_config_from_dictionary backends;
     image_config_from_dictionary := image_config_from_dictionary backends;
     conversation_config_from_dictionary :=
       conversation_config_from_dictionary backends |}.

(** The same deployment with a picture folder. *)
Definition backends_with_images : @Backends string string string string (list nat) :=
  {| asymmetric_setup := asymmetric_setup backends;
     asymmetric_query := asymmetric_query backends;
     asymmetric_collate_results := asymmetric_collate_results backends;
     symmetric_ledger_setup := symmetric_ledger_setup backends;
     symmetric_ledger_query := symmetric_ledger_query backends;
     symmetric_ledger_collate_results := symmetric_ledger_collate_results backends;
     image_search_setup := image_search_setup backends;
     image_search_query := image_search_query backends;
     image_search_collate_results := fun _ names directory _ =>
       Ok (VList [names; directory]);
     entries := entries backends;
     image_names := fun _ => VList [VStr "beach.jpg"];
     input_directory := input_directory backends;
     text_config_from_dictionary := text_config_from_dictionary backends;
     image_config_from_dictionary := fun _ _ => Some "pictures";
     conversation_config_from_dictionary :=
       conversation_config_from_dictionary backends |}.

Definition started_with_images : World :=
  (main backends_with_images config false false (fresh_world Absent)).2.

(** A process started over a log file that holds a list. *)
Definition started_over_list : World :=
  (main backends config false false
     (fresh_world (RegularFile (Document (VList [VInt 1]))))).2.

(** A process started over a log whose session sequence is empty. *)
Definition no_sessions_yet : gmap string value :=
  <["session" := VList []]> (<["chat" := VList []]> ∅).

Definition started_over_no_sessions : World :=
  (main backends config false false
     (fresh_world (RegularFile (Document (VDict no_sessions_yet))))).2.

(** A process whose log path is taken by a directory, after one turn. *)
Definition talked_beside_directory : World :=
  (chat backends gpt (VStr "hi")
     (main backends config false false (fresh_world NotRegularFile)).2).2.

Definition ok_response (response : value) : value :=
  VDict (<["status" := VStr "ok"]> (<["response" := response]> ∅)).

Lemma initialize_search_registers_witness :
  let out := initialize_search backends config_with_notes false false
               (fresh_world Absent) in
  out.1 = Ok (indexed_models, indexed_config) /\
  calls out.2 = [CallSetup Notes false; CallSetup Music false].
Proof.
  split; [reflexivity |].
  assert (H : initialize_search backends config_with_notes false false
                (fresh_world Absent)
              = (Ok (indexed_models, indexed_config),
                 (initialize_search backends config_with_notes false false
                    (fresh_world Absent)).2))
    by (vm_compute; reflexivity).
  destruct (initialize_search_registers backends _ _ _ _ _ _ _ H)
    as (_ & _ & _ & Hcalls).
  exact Hcalls.
Defined.

Lemma shutdown_then_restart_restores_log_witness :
  conversation talked = Some (conversation_of talked) /\
  truthy (meta_log (conversation_of talked)) = true /\
  shutdown_event gpt talked = (Ok tt, stopped) /\
  main backends config false false (fresh_world (logfile stopped))
    = (Ok tt, restarted) /\
  meta_log_of restarted = meta_log_of stopped /\
  log_entries "chat" restarted = log_entries "chat" talked /\
  chat_session_of restarted = Some VNone /\
  chat_session_of stopped = Some (VStr "hello").
Proof.
  assert (H1 : conversation talked = Some (conversation_of talked))
    by (vm_compute; reflexivity).
  assert (H2 : truthy (meta_log (conversation_of talked)) = true)
    by (vm_compute; reflexivity).
  assert (H3 : shutdown_event gpt talked = (Ok tt, stopped))
    by (vm_compute; reflexivity).
  assert (H4 : main backends config false false (fresh_world (logfile stopped))
               = (Ok tt, restarted)) by (vm_compute; reflexivity).
  destruct (shutdown_then_restart_restores_log backends gpt talked stopped
              restarted (conversation_of talked) config false false
              H1 H2 H3 H4) as (Hlog & Hchat & Hsession).
  repeat split; try assumption; vm_compute; reflexivity.
Defined.

Lemma chat_log_failure_keeps_new_prompt_witness :
  let w := started_over_list in
  let answered := converse_with_gpt backends gpt (VStr "hi")
                    (chat_session (conversation_of w)) w in
  meta_log_of w = Some (VList [VInt 1]) /\
  answered.1 = Ok (intent "general" VNone, VStr "hello") /\
  exists w', chat backends gpt (VStr "hi") w = (Raise AttributeError, w') /\
             chat_session_of w' = Some (VStr "hello") /\
             meta_log_of w' = Some (VList [VInt 1]).
Proof.
  split; [reflexivity | split; [reflexivity |]].
  assert (H1 : conversation started_over_list
               = Some (conversation_of started_over_list))
    by (vm_compute; reflexivity).
  assert (H2 : converse_with_gpt backends gpt (VStr "hi")
                 (chat_session (conversation_of started_over_list))
                 started_over_list
               = (Ok (intent "general" VNone, VStr "hello"),
                  (converse_with_gpt backends gpt (VStr "hi")
                     (chat_session (conversation_of started_over_list))
                     started_over_list).2))
    by (vm_compute; reflexivity).
  assert (H3 : message_to_prompt gpt (VStr "hi")
                 (chat_session (conversation_of started_over_list))
                 (VStr "hello") = Ok (VStr "hello")) by reflexivity.
  assert (H4 : forall d, meta_log (conversation_of started_over_list) <> VDict d)
    by (intros d; vm_compute; discriminate).
  destruct (chat_log_failure_keeps_new_prompt backends gpt (VStr "hi")
              started_over_list _ (conversation_of started_over_list)
              _ _ _ H1 H2 H3 H4) as (w' & Hrun & Hsession & Hlog & _).
  exists w'. split; [exact Hrun | split; [exact Hsession | exact Hlog]].
Defined.

Lemma shutdown_with_empty_session_list_raises_witness :
  let w := started_over_no_sessions in
  conversation w = Some (conversation_of w) /\
  meta_log (conversation_of w) = VDict no_sessions_yet /\
  no_sessions_yet !! "session" = Some (VList []) /\
  exists w', shutdown_event gpt w = (Raise IndexError, w') /\
             logfile w' = logfile w.
Proof.
  assert (H1 : conversation started_over_no_sessions
               = Some (conversation_of started_over_no_sessions))
    by (vm_compute; reflexivity).
  assert (H2 : meta_log (conversation_of started_over_no_sessions)
               = VDict no_sessions_yet) by (vm_compute; reflexivity).
  assert (H3 : no_sessions_yet !! "session" = Some (VList []))
    by (vm_compute; reflexivity).
  split; [exact H1 | split; [exact H2 | split; [exact H3 |]]].
  destruct (shutdown_with_empty_session_list_raises gpt started_over_no_sessions
              (conversation_of started_over_no_sessions) no_sessions_yet
              (VStr "a summary") H1 H2 H3 eq_refl)
    as (w' & Hrun & _ & Hfile & _).
  exists w'. split; [exact Hrun | exact Hfile].
Defined.

Lemma shutdown_writes_whole_log_witness :
  conversation talked = Some (conversation_of talked) /\
  truthy (meta_log (conversation_of talked)) = true /\
  shutdown_event gpt talked = (Ok tt, stopped) /\
  exists doc, meta_log_of stopped = Some doc /\
              logfile stopped = RegularFile (Document doc).
Proof.
  assert (H1 : conversation talked = Some (conversation_of talked))
    by (vm_compute; reflexivity).
  assert (H2 : truthy (meta_log (conversation_of talked)) = true)
    by (vm_compute; reflexivity).
  assert (H3 : shutdown_event gpt talked = (Ok tt, stopped))
    by (vm_compute; reflexivity).
  split; [exact H1 | split; [exact H2 | split; [exact H3 |]]].
  destruct (shutdown_writes_whole_log gpt talked stopped (conversation_of talked)
              H1 H2 H3) as ((doc & Hlog & Hfile & _) & _).
  exists doc. split; [exact Hlog | exact Hfile].
Defined.

Lemma regenerate_keeps_earlier_rebuilds_witness :
  let w := started_with_notes in
  notes (search_config w) = Some "notes" /\
  music (search_config w) = Some "songs" /\
  exists w', regenerate backends_music_down None w
               = (Raise (ExternalError "setup"), w') /\
             notes_search (model w') = Some "notes-index" /\
             music_search (model w') = music_search (model w).
Proof.
  assert (H1 : notes (search_config started_with_notes) = Some "notes")
    by (vm_compute; reflexivity).
  assert (H2 : music (search_config started_with_notes) = Some "songs")
    by (vm_compute; reflexivity).
  split; [exact H1 | split; [exact H2 |]].
  destruct (regenerate_keeps_earlier_rebuilds backends_music_down
              started_with_notes "notes" "songs" "notes-index"
              (ExternalError "setup") H1 H2 eq_refl eq_refl)
    as (w' & Hrun & Hnotes & Hmusic & _).
  exists w'. split; [exact Hrun | split; [exact Hnotes | exact Hmusic]].
Defined.

Lemma regenerate_all_is_sequence_witness :
  let w := started_with_notes in
  (regenerate backends None w).1
    = Ok (VDict (<["status" := VStr "ok"]>
                 (<["message" := VStr "regeneration completed"]> ∅))) /\
  after backends (Regenerate (Some Image))
    (after backends (Regenerate (Some Ledger))
       (after backends (Regenerate (Some Music))
          (after backends (Regenerate (Some Notes)) w)))
    = (regenerate backends None w).2.
Proof.
  split; [reflexivity |].
  assert (H : regenerate backends None started_with_notes
              = (Ok (VDict (<["status" := VStr "ok"]>
                            (<["message" := VStr "regeneration completed"]> ∅))),
                 (regenerate backends None started_with_notes).2))
    by (vm_compute; reflexivity).
  exact (regenerate_all_is_sequence backends _ _ _ H).
Defined.

Lemma reachable_started_with_images :
  reachable backends_with_images started_with_images.
Proof. by apply (reach_first_start backends_with_images config false false). Qed.

Lemma search_image_has_config_witness :
  no_query (VStr "beach") = false /\
  route (Some Image) (model started_with_images) = Some Image /\
  (search backends_with_images (VStr "beach") (Some 3) (Some Image)
     started_with_images).1
    = Ok (VList [VList [VStr "beach.jpg"]; VStr "images"]).
Proof.
  assert (H1 : no_query (VStr "beach") = false) by reflexivity.
  assert (H2 : route (Some Image) (model started_with_images) = Some Image)
    by (vm_compute; reflexivity).
  split; [exact H1 | split; [exact H2 |]].
  destruct (search_image_has_config backends_with_images (VStr "beach") (Some 3)
              (Some Image) started_with_images reachable_started_with_images
              H1 H2) as (h & c & _ & _ & Hrun).
  rewrite Hrun. vm_compute. reflexivity.
Defined.

Lemma chat_recall_without_notes_witness :
  let out := chat backends gpt (VStr "recall") started in
  conversation started = Some (conversation_of started) /\
  notes_search (model started) = None /\
  calls out.2 = calls started ++
    [CallUnderstand (VStr "recall");
     CallSummarize (VStr EmptyString) "notes" (Some (VStr "recall"))].
Proof.
  assert (H1 : conversation started = Some (conversation_of started))
    by (vm_compute; reflexivity).
  assert (H2 : notes_search (model started) = None) by (vm_compute; reflexivity).
  split; [exact H1 | split; [exact H2 |]].
  exact (chat_recall_without_notes backends gpt (VStr "recall") started _
           (conversation_of started) (intent "notes" coffee) _
           H1 eq_refl eq_refl (or_intror H2) (surjective_pairing _)).
Defined.

Lemma chat_stores_prompt_witness :
  conversation started = Some (conversation_of started) /\
  chat backends gpt (VStr "hi") started = (Ok (ok_response (VStr "hello")), talked) /\
  exists response p,
    py_getitem (ok_response (VStr "hello")) "response" = Ok response /\
    message_to_prompt gpt (VStr "hi") (chat_session (conversation_of started))
      response = Ok p /\
    chat_session_of talked = Some p.
Proof.
  assert (H1 : conversation started = Some (conversation_of started))
    by (vm_compute; reflexivity).
  assert (H2 : chat backends gpt (VStr "hi") started
               = (Ok (ok_response (VStr "hello")), talked))
    by (vm_compute; reflexivity).
  split; [exact H1 | split; [exact H2 |]].
  destruct (chat_stores_prompt backends gpt (VStr "hi") started talked
              (conversation_of started) _ H1 H2)
    as (response & p & Hresp & _ & Hp & Hsession).
  exists response, p. split; [exact Hresp | split; [exact Hp | exact Hsession]].
Defined.

Lemma next_turn_sees_prompt_witness :
  let out := chat backends gpt (VStr "again") talked in
  conversation started = Some (conversation_of started) /\
  chat backends gpt (VStr "hi") started = (Ok (ok_response (VStr "hello")), talked) /\
  exists p, message_to_prompt gpt (VStr "hi")
              (chat_session (conversation_of started)) (VStr "hello") = Ok p /\
            calls out.2 = calls talked ++
              [CallUnderstand (VStr "again"); CallConverse (VStr "again") p].
Proof.
  assert (H1 : conversation started = Some (conversation_of started))
    by (vm_compute; reflexivity).
  assert (H2 : chat backends gpt (VStr "hi") started
               = (Ok (ok_response (VStr "hello")), talked))
    by (vm_compute; reflexivity).
  split; [exact H1 | split; [exact H2 |]].
  destruct (next_turn_sees_prompt backends gpt gpt (VStr "hi") (VStr "again")
              started talked _ (conversation_of started) _
              (intent "general" VNone) _ H1 H2 eq_refl eq_refl
              (surjective_pairing _))
    as (response1 & p & Hresp & Hp & Hcalls).
  assert (response1 = VStr "hello") as ->.
  { vm_compute in Hresp. by injection Hresp as <-. }
  exists p. split; [exact Hp | exact Hcalls].
Defined.

Lemma shutdown_cannot_replace_other_node_witness :
  let w := talked_beside_directory in
  let out := shutdown_event gpt w in
  conversation w = Some (conversation_of w) /\
  truthy (meta_log (conversation_of w)) = true /\
  logfile w = NotRegularFile /\
  completed out.1 = false /\ logfile out.2 = NotRegularFile.
Proof.
  assert (H1 : conversation talked_beside_directory
               = Some (conversation_of talked_beside_directory))
    by (vm_compute; reflexivity).
  assert (H2 : truthy (meta_log (conversation_of talked_beside_directory)) = true)
    by (vm_compute; reflexivity).
  assert (H3 : logfile talked_beside_directory = NotRegularFile)
    by (vm_compute; reflexivity).
  split; [exact H1 | split; [exact H2 | split; [exact H3 |]]].
  destruct (shutdown_cannot_replace_other_node gpt talked_beside_directory _
              (conversation_of talked_beside_directory) _ H1 H2 H3
              (surjective_pairing _)) as (Hraise & Hfile & _).
  split; [exact Hraise | exact Hfile].
Defined.

End Example.
